(* ===== verification/_CoqProject ===== *)
-Q . S2P
Prelude.v
Layers.v
Bottleneck.v
PPM.v
Backbone.v
SRMNet.v
StateDict.v
Tensor.v
NumLayers.v
Interpolate.v
NumModules.v
NumModel.v
