(* ===== verification/Prelude.v ===== *)
(** * A verification development of SRM-Pytorch ([src/model/SRM_model.py])

    The repository defines one PyTorch model, [SRM]: two ResNet-50 style
    backbones applied to the same image, a pyramid pooling module on the
    second one, and a fusion head that returns two 2-channel score maps.
    Everything numerical is delegated to [torch.nn]; what the file itself
    decides is the layer graph (which layers, with which sizes, composed in
    which order), the bookkeeping of [self.inplanes] while the residual
    groups are built, the names of the parameters, and the copy of the
    pretrained ResNet-50 parameters into the backbones.  This development
    models exactly that, executably, and proves it correct.

    ** Parts of the program and where they are modelled

    Two layers of models.  The shape layer (files [Layers] to
    [StateDict]) follows every call of the source on (batch, channels,
    height, width) shapes and parameter names; the value layer (files
    [Tensor] to [NumModel]) follows the same calls on tensors of exact
    rationals and refines the shape layer.

    - [Prelude] (this file): the error monad [res] that stands for the
      exceptions the framework raises ([RuntimeError] on a shape mismatch,
      [IndexError] on a short list, the [load_state_dict] errors), its
      notation [let* x := c in k] in [srm_scope], the arithmetic of the
      output-size formula [down s h = (h - 1) / s + 1], the tactics
      [nat_div_lia], [res_run] (split a successful chain of binds) and
      [unbool], and the hint database [srm].
    - [Layers]: the [torch.nn] layers the file instantiates ([Conv2d],
      [BatchNorm2d], [ReLU], [MaxPool2d], [AvgPool2d],
      [functional.interpolate], [torch.cat], the in-place [+=]) as
      records of their constructor arguments, with their shape semantics
      as documented by PyTorch, errors included.  The class [NNModule] is
      the interface every module offers its client: a forward function
      on shapes.  [nn.Sequential] is the pair and the list instance.
    - [Bottleneck]: class [Bottleneck] (lines 8-44): [init] and
      [forward], and [make_layer] (the [_make_layer] method of
      [Stage1]/[Stage2], lines 81-96 and 139-154) as explicit state passing
      of [self.inplanes].
    - [PPM]: class [PPM] (lines 167-201).
    - [Backbone]: classes [Stage1] and [Stage2] (lines 47-165),
      construction from the [layers] list (with Python's [IndexError]) and
      forward.
    - [SRMNet]: class [SRM] (lines 204-227), construction and forward, and
      the [__main__] block (lines 230-233).
    - [StateDict]: parameter names and shapes of every module
      ([state_dict]), and [_copy_params] (lines 98-107, 156-164) as
      operations on [gmap string V], with [load_state_dict]'s strict key
      and size checks.
    - [Tensor]: a tensor is its shape and a value function into [Q];
      the equivalence [teq] (same shape, same values inside it), the
      relation [res_rel] on results, and finite sums.
    - [NumLayers] and [Interpolate]: the values of the framework's layers
      (convolution with zero padding, inference-mode batch norm, max and
      average pooling, the bilinear resize with [align_corners=True] and
      the framework's copy path for equal sizes, concatenation,
      broadcasting addition), and the lemmas of the resize (source
      positions inside the input, aligned corners, convex combination).
    - [NumModules]: the class [NumModule], the interface of a module with
      values: a numeric forward running in an environment of parameters
      named as in the [state_dict], with two laws, [num_forward_shape]
      (its result has the shape forward's shape; errors are the same) and
      [num_forward_frame] (two environments that agree on the module's
      [StateDict] names and two inputs that agree inside their shape give
      equivalent results).  The
      instances for the layers and [nn.Sequential].
    - [NumModel]: the numeric forwards of [Bottleneck], [PPM], [Stage1],
      [Stage2] and [SRM] (modules [BottleneckNum] to [SRMNum]), the same
      call sequences as the shape forwards, each a [NumModule] instance.

    ** What the theorems show

    - shape correctness of each module's forward on every input, with the
      exact set of inputs it accepts (errors included);
    - every residual block built by [_make_layer] is shape-correct for any
      spatial size (the guard of [_make_layer] is what makes it so), and
      each half of the guard is needed;
    - the end-to-end property of the spec: [(B,3,H,W)] gives two
      [(B,2,384,384)] outputs exactly when [369 <= H, W <= 384];
    - [_copy_params] overwrites exactly the common keys, keeps the others,
      preserves the well-formedness of the state, and never raises for
      the torchvision ResNet-50 checkpoint;
    - [_make_layer] builds [max 1 blocks] blocks; each branch of the
      pyramid pooling module pools a map of at least [24 x 24] into
      [H / k] by [W / k] bins for its window [k];
    - on values: a block's output is nonnegative; the PPM passes its
      input through as its first channels, and its global-context
      channels hold the [1 x 1] convolution of the channel means at every
      position; the auxiliary output has the corners and the range of
      [Stage1]'s map, and depends on [Stage1] and its parameters only.
      The two laws of [NumModule] (the numeric forward has the shape
      forward's shape and errors; it reads only in-bounds entries and the
      parameters of its [state_dict]) hold for every module by
      construction: they are the interface the value theorems use, not
      properties of the program.

    ** Bounds and evaluation
    No fuel: every definition is structural.  Concrete checks evaluate
    shapes in unary [nat] (channel counts up to [3072]); value-level
    witnesses run on a one-channel instance of the architecture
    ([NumModel.mini_srm]) and test success with [vm_compute] on
    [is_ok], so that no value function is normalised.

    ** Not modelled
    Floating-point rounding (values are exact rationals, and [rsqrt] is
    a parameter of the environment), training (autograd, batch-norm
    statistics in training mode; batch norm is modelled in inference
    mode, so the training-mode error on a map with one value per channel
    is not, and "any spatial size" in the group and backbone theorems
    means in inference mode), the download of the checkpoint
    ([torchvision]) and its values, the device placement.  The
    framework's layers are modelled from their documented behaviour, not
    from the repository. *)

From stdpp Require Export base strings list sets.
From Stdlib Require Export Lia Arith.

Declare Scope srm_scope.
Delimit Scope srm_scope with srm.
Open Scope srm_scope.

(** ** Errors raised by the framework on behalf of the modelled code *)

Inductive error : Type :=
  | ChannelMismatch (expected got : nat)   (** conv / batch-norm input *)
  | KernelTooLarge (kernel padded : nat)   (** kernel larger than input *)
  | BadStride                              (** stride 0 *)
  | PadTooLarge (pad kernel : nat)         (** pooling padding > k/2 *)
  | EmptyInput                             (** interpolate of size 0 *)
  | CatMismatch                            (** torch.cat sizes differ *)
  | AddMismatch                            (** in-place add cannot broadcast *)
  | IndexError (index len : nat)           (** Python list index *)
  | StateDictError (missing unexpected mismatched : list string).
      (** [load_state_dict(strict=True)]: the keys the module has and
          the dict lacks, the keys it has and the module lacks, and the
          keys whose sizes differ *)

Inductive res (A : Type) : Type :=
  | Ok (a : A)
  | Err (e : error).
Arguments Ok {A} a.
Arguments Err {A} e.

Definition res_bind {A B} (c : res A) (k : A -> res B) : res B :=
  match c with
  | Ok a => k a
  | Err e => Err e
  end.

Notation "'let*' x ':=' c 'in' k" := (res_bind c (fun x => k))
  (at level 10, x name, c at level 100, k at level 200) : srm_scope.

(** [check b e]: raise [e] unless [b] holds. *)
Definition check (b : bool) (e : error) : res unit :=
  if b then Ok tt else Err e.

Definition is_ok {A} (r : res A) : bool :=
  match r with Ok _ => true | Err _ => false end.

Lemma is_ok_Ok {A} (r : res A) : is_ok r = true -> exists a, r = Ok a.
Proof. destruct r; [eauto|done]. Qed.

(** Python's [l[i]] on a list of non-negative indices. *)
Definition py_index {A} (l : list A) (i : nat) : res A :=
  match nth_error l i with
  | Some a => Ok a
  | None => Err (IndexError i (length l))
  end.

Lemma res_bind_Ok {A B} (a : A) (k : A -> res B) : res_bind (Ok a) k = k a.
Proof. reflexivity. Qed.

Lemma res_bind_Err {A B} (e : error) (k : A -> res B) :
  res_bind (Err e) k = Err e.
Proof. reflexivity. Qed.

Lemma res_bind_Ok_r {A} (c : res A) : res_bind c Ok = c.
Proof. by destruct c. Qed.

Lemma res_bind_eq_Ok {A B} (c : res A) (k : A -> res B) (b : B) :
  res_bind c k = Ok b <-> exists a, c = Ok a /\ k a = Ok b.
Proof.
  destruct c as [a|e]; simpl; split.
  - eauto.
  - intros (a' & Ha & Hk). congruence.
  - discriminate.
  - intros (a' & Ha & _). discriminate.
Qed.

Lemma check_true e : check true e = Ok tt.
Proof. reflexivity. Qed.

Lemma py_index_lt {A} (l : list A) i :
  i < length l -> exists a, py_index l i = Ok a /\ nth_error l i = Some a.
Proof.
  intros Hi. unfold py_index.
  destruct (nth_error l i) eqn:E; [eauto|].
  apply nth_error_None in E. lia.
Qed.

Lemma py_index_ge {A} (l : list A) i :
  length l <= i -> py_index l i = Err (IndexError i (length l)).
Proof.
  intros Hi. unfold py_index. apply nth_error_None in Hi. by rewrite Hi.
Qed.

(** A qualified attribute name: [p.k]. *)
Definition dot (p k : string) : string := String.append p (String.append "." k).

(** ** The output-size arithmetic

    Every convolution and pooling of the model with kernel [k], stride
    [s] and padding [p] such that [2 p + 1 = k] (or [k = 1], [p = 0])
    maps a spatial size [h >= 1] to [down s h]. *)

Definition down (s h : nat) : nat := (h - 1) / s + 1.

(** [res_run H]: split a hypothesis [H : (let* x := c in k) = Ok b]
    into the successful steps of the chain, down to its last call. *)
Ltac res_run H :=
  repeat match type of H with
  | res_bind _ _ = Ok _ => apply res_bind_eq_Ok in H as (? & ? & H); cbv beta in H
  end.

(** [unbool]: turn the boolean tests of the hypotheses into propositions. *)
Ltac unbool :=
  repeat match goal with
  | H : (_ && _) = true |- _ => apply andb_prop in H as [? ?]
  | H : negb _ = true |- _ => apply negb_true_iff in H
  | H : (_ =? _) = true |- _ => apply Nat.eqb_eq in H
  | H : (_ =? _) = false |- _ => apply Nat.eqb_neq in H
  | H : (_ <=? _) = true |- _ => apply Nat.leb_le in H
  | H : (_ <? _) = true |- _ => apply Nat.ltb_lt in H
  end.

Ltac div_fact a b :=
  let q := fresh "q" in
  let r := fresh "r" in
  pose proof (Nat.div_mod_eq a b);
  pose proof (Nat.mod_upper_bound a b ltac:(lia));
  set (q := a / b) in *; set (r := a mod b) in *; clearbody q r.

(** [nat_div_lia]: linear arithmetic with division by positive
    constants (or by divisors [lia] proves positive). *)
Ltac nat_div_lia :=
  repeat match goal with
  | |- context [?a / ?b] => div_fact a b
  | H : context [?a / ?b] |- _ => div_fact a b
  end; lia.

Lemma down_pos s h : 1 <= down s h.
Proof. unfold down. lia. Qed.

Lemma down_1 h : 1 <= h -> down 1 h = h.
Proof. intros. unfold down. rewrite Nat.div_1_r. lia. Qed.

Lemma down_down a b h :
  1 <= a -> 1 <= b -> 1 <= h -> down a (down b h) = down (b * a) h.
Proof.
  intros. unfold down. rewrite Nat.add_sub, Nat.Div0.div_div by lia. reflexivity.
Qed.

Lemma down_le s h : 1 <= s -> 1 <= h -> down s h <= h.
Proof.
  intros. unfold down.
  pose proof (Nat.Div0.div_le_upper_bound (h - 1) s (h - 1) ltac:(nia)).
  lia.
Qed.

Create HintDb srm discriminated.
Create Rewrite HintDb srm_rw.
#[export] Hint Resolve down_pos : srm.
#[export] Hint Rewrite @res_bind_Ok @res_bind_Err check_true : srm_rw.
