(* ===== verification/Layers.v ===== *)
(** * The [torch.nn] layers used by [SRM_model.py], on shapes

    Each layer the model instantiates is a record of its constructor
    arguments ([nn.Conv2d(in, out, kernel_size, stride, padding, bias)],
    [nn.BatchNorm2d(n)], [nn.MaxPool2d(k, stride, padding)],
    [nn.AvgPool2d(k, stride)]); its forward is the framework's shape rule
    on a rank-4 (batch, channels, height, width) tensor, with the
    framework's errors as [Err].  [NNModule] is the interface of a module
    to its client (its forward on shapes); [nn.Sequential] is the
    instance on lists and pairs, and its lemmas are proved against the
    interface only. *)

From S2P Require Import Prelude.

Record shape : Type := Shape { sN : nat; sC : nat; sH : nat; sW : nat }.

#[export] Instance shape_eq_dec : EqDecision shape.
Proof. intros [a b c d] [a' b' c' d']. unfold Decision. decide equality; apply Nat.eq_dec. Defined.

(** Output size of a convolution or pooling window over [n] input
    positions: [floor((n + 2p - k) / s) + 1], an error when the padded
    input is shorter than the kernel or the stride is zero. *)
Definition out_size (k s p n : nat) : res nat :=
  let* _ := check (negb (s =? 0)) BadStride in
  let* _ := check (k <=? n + 2 * p) (KernelTooLarge k (n + 2 * p)) in
  Ok ((n + 2 * p - k) / s + 1).

Record Conv2d : Type := Conv2d_ {
  conv_in : nat; conv_out : nat; conv_k : nat; conv_s : nat; conv_p : nat;
  conv_bias : bool }.

Record BatchNorm2d : Type := BatchNorm2d_ { bn_features : nat }.

Record ReLU : Type := ReLU_ { }.

Record MaxPool2d : Type := MaxPool2d_ { mp_k : nat; mp_s : nat; mp_p : nat }.

(** [nn.AvgPool2d(k, stride=s)]: no padding, floor mode. *)
Record AvgPool2d : Type := AvgPool2d_ { ap_k : nat; ap_s : nat }.

Definition conv2d_forward (c : Conv2d) (x : shape) : res shape :=
  let* _ := check (sC x =? conv_in c) (ChannelMismatch (conv_in c) (sC x)) in
  let* h := out_size (conv_k c) (conv_s c) (conv_p c) (sH x) in
  let* w := out_size (conv_k c) (conv_s c) (conv_p c) (sW x) in
  Ok (Shape (sN x) (conv_out c) h w).

Definition batchnorm2d_forward (b : BatchNorm2d) (x : shape) : res shape :=
  let* _ := check (sC x =? bn_features b) (ChannelMismatch (bn_features b) (sC x)) in
  Ok x.

Definition relu_forward (_ : ReLU) (x : shape) : res shape := Ok x.

Definition maxpool2d_forward (m : MaxPool2d) (x : shape) : res shape :=
  let* _ := check (2 * mp_p m <=? mp_k m) (PadTooLarge (mp_p m) (mp_k m)) in
  let* h := out_size (mp_k m) (mp_s m) (mp_p m) (sH x) in
  let* w := out_size (mp_k m) (mp_s m) (mp_p m) (sW x) in
  Ok (Shape (sN x) (sC x) h w).

Definition avgpool2d_forward (a : AvgPool2d) (x : shape) : res shape :=
  let* h := out_size (ap_k a) (ap_s a) 0 (sH x) in
  let* w := out_size (ap_k a) (ap_s a) 0 (sW x) in
  Ok (Shape (sN x) (sC x) h w).

(** [nn.functional.interpolate(x, size=s, mode='bilinear',
    align_corners=True)]: both spatial sizes become [s]. *)
Definition interpolate (size : nat) (x : shape) : res shape :=
  let* _ := check ((0 <? sH x) && (0 <? sW x) && (0 <? size)) EmptyInput in
  Ok (Shape (sN x) (sC x) size size).

(** [torch.cat(xs, 1)]: every size but the channels agrees with the first
    tensor's; the channels add up. *)
Definition same_but_channels (x y : shape) : bool :=
  (sN y =? sN x) && (sH y =? sH x) && (sW y =? sW x).

Definition cat1 (xs : list shape) : res shape :=
  match xs with
  | [] => Err CatMismatch
  | x :: rest =>
      let* _ := check (forallb (same_but_channels x) rest) CatMismatch in
      Ok (Shape (sN x) (sum_list_with sC xs) (sH x) (sW x))
  end.

(** [out += r]: [r] must broadcast to the shape of [out], which the
    in-place addition cannot change. *)
Definition bcast (a b : nat) : bool := (b =? a) || (b =? 1).

Definition add_inplace (out r : shape) : res shape :=
  let* _ := check (bcast (sN out) (sN r) && bcast (sC out) (sC r)
                   && bcast (sH out) (sH r) && bcast (sW out) (sW r)) AddMismatch in
  Ok out.

(** ** The module interface *)

Class NNModule (M : Type) := nn_forward : M -> shape -> res shape.

#[export] Instance Conv2d_module : NNModule Conv2d := conv2d_forward.
#[export] Instance BatchNorm2d_module : NNModule BatchNorm2d := batchnorm2d_forward.
#[export] Instance ReLU_module : NNModule ReLU := relu_forward.
#[export] Instance MaxPool2d_module : NNModule MaxPool2d := maxpool2d_forward.
#[export] Instance AvgPool2d_module : NNModule AvgPool2d := avgpool2d_forward.

(** [nn.Sequential(a, b)] of two modules of different classes. *)
#[export] Instance pair_module {A B} `{NNModule A, NNModule B} : NNModule (A * B) :=
  fun ab x => let* y := nn_forward ab.1 x in nn_forward ab.2 y.

(** [nn.Sequential] over the list [layers] of modules of one class. *)
Fixpoint seq_forward {M} `{NNModule M} (l : list M) (x : shape) : res shape :=
  match l with
  | [] => Ok x
  | m :: l' => let* y := nn_forward m x in seq_forward l' y
  end.

#[export] Instance list_module {M} `{NNModule M} : NNModule (list M) := seq_forward.

(** ** Closed forms of the layer shape rules *)

Lemma out_size_down k s p n :
  1 <= s -> 1 <= n -> 2 * p + 1 = k -> out_size k s p n = Ok (down s n).
Proof.
  intros Hs Hn Hk. unfold out_size, down.
  destruct (s =? 0) eqn:E; [apply Nat.eqb_eq in E; lia|].
  rewrite (proj2 (Nat.leb_le k (n + 2 * p))) by lia. simpl.
  do 3 f_equal. lia.
Qed.

Lemma out_size_pool k n :
  1 <= k <= n -> out_size k k 0 n = Ok (n / k).
Proof.
  intros Hk. unfold out_size.
  destruct (k =? 0) eqn:E; [apply Nat.eqb_eq in E; lia|].
  rewrite (proj2 (Nat.leb_le k (n + 2 * 0))) by lia. simpl. f_equal.
  replace (n + 0 - k) with (n - k) by lia.
  pose proof (Nat.div_add (n - k) 1 k ltac:(lia)).
  replace (n - k + 1 * k) with n in H by lia. lia.
Qed.

Lemma out_size_pool_small k n : n < k -> out_size k k 0 n = Err (KernelTooLarge k (n + 0)).
Proof.
  intros Hk. unfold out_size.
  destruct (k =? 0) eqn:E; [apply Nat.eqb_eq in E; lia|].
  rewrite (proj2 (Nat.leb_gt k (n + 2 * 0))) by lia. reflexivity.
Qed.

(** A convolution whose padding centres its odd kernel. *)
Definition centred (c : Conv2d) : Prop :=
  1 <= conv_s c /\ 2 * conv_p c + 1 = conv_k c.

Lemma conv2d_forward_down c x :
  centred c -> sC x = conv_in c -> 1 <= sH x -> 1 <= sW x ->
  conv2d_forward c x = Ok (Shape (sN x) (conv_out c) (down (conv_s c) (sH x)) (down (conv_s c) (sW x))).
Proof.
  intros [Hs Hk] HC Hh Hw. unfold conv2d_forward.
  rewrite HC, Nat.eqb_refl, check_true, res_bind_Ok.
  rewrite !out_size_down by lia. reflexivity.
Qed.

Lemma conv2d_forward_channels c x :
  sC x <> conv_in c -> conv2d_forward c x = Err (ChannelMismatch (conv_in c) (sC x)).
Proof.
  intros HC. unfold conv2d_forward.
  by rewrite (proj2 (Nat.eqb_neq _ _) HC).
Qed.

Lemma batchnorm2d_forward_ok b x :
  sC x = bn_features b -> batchnorm2d_forward b x = Ok x.
Proof. intros HC. unfold batchnorm2d_forward. by rewrite HC, Nat.eqb_refl. Qed.

Lemma relu_forward_ok r x : relu_forward r x = Ok x.
Proof. reflexivity. Qed.

Lemma maxpool2d_forward_down m x :
  1 <= mp_s m -> 2 * mp_p m + 1 = mp_k m -> 1 <= sH x -> 1 <= sW x ->
  maxpool2d_forward m x = Ok (Shape (sN x) (sC x) (down (mp_s m) (sH x)) (down (mp_s m) (sW x))).
Proof.
  intros Hs Hk Hh Hw. unfold maxpool2d_forward.
  rewrite (proj2 (Nat.leb_le _ _)) by lia. simpl.
  rewrite !out_size_down by lia. reflexivity.
Qed.

Lemma avgpool2d_forward_ok a x :
  ap_s a = ap_k a -> 1 <= ap_k a <= sH x -> ap_k a <= sW x ->
  avgpool2d_forward a x = Ok (Shape (sN x) (sC x) (sH x / ap_k a) (sW x / ap_k a)).
Proof.
  intros Hs Hh Hw. unfold avgpool2d_forward. rewrite Hs.
  rewrite !out_size_pool by lia. reflexivity.
Qed.

Lemma interpolate_ok s x :
  1 <= sH x -> 1 <= sW x -> 1 <= s -> interpolate s x = Ok (Shape (sN x) (sC x) s s).
Proof.
  intros. unfold interpolate.
  rewrite !(proj2 (Nat.ltb_lt _ _)) by lia. reflexivity.
Qed.

Lemma add_inplace_same out : add_inplace out out = Ok out.
Proof. unfold add_inplace, bcast. by rewrite !Nat.eqb_refl. Qed.

Lemma same_but_channels_iff x y :
  same_but_channels x y = true <-> sN y = sN x /\ sH y = sH x /\ sW y = sW x.
Proof. unfold same_but_channels. rewrite !andb_true_iff, !Nat.eqb_eq. tauto. Qed.

Lemma cat1_ok x rest :
  Forall (fun y => sN y = sN x /\ sH y = sH x /\ sW y = sW x) rest ->
  cat1 (x :: rest) = Ok (Shape (sN x) (sum_list_with sC (x :: rest)) (sH x) (sW x)).
Proof.
  intros Hall. unfold cat1.
  assert (forallb (same_but_channels x) rest = true) as ->; [|reflexivity].
  apply forallb_forall. intros y Hy.
  apply same_but_channels_iff. rewrite Forall_forall in Hall. apply Hall. by apply list_elem_of_In.
Qed.

Lemma cat1_mismatch x rest :
  Exists (fun y => ~ (sN y = sN x /\ sH y = sH x /\ sW y = sW x)) rest ->
  cat1 (x :: rest) = Err CatMismatch.
Proof.
  intros Hex. unfold cat1.
  assert (forallb (same_but_channels x) rest = false) as ->; [|reflexivity].
  apply not_true_iff_false. rewrite forallb_forall.
  intros Hall. apply Exists_exists in Hex as (y & Hy & Hne).
  apply list_elem_of_In, Hall, same_but_channels_iff in Hy. tauto.
Qed.

Lemma nn_forward_conv2d c x : nn_forward c x = conv2d_forward c x.
Proof. reflexivity. Qed.
Lemma nn_forward_batchnorm2d b x : nn_forward b x = batchnorm2d_forward b x.
Proof. reflexivity. Qed.
Lemma nn_forward_relu r x : nn_forward r x = relu_forward r x.
Proof. reflexivity. Qed.
Lemma nn_forward_pair {A B} (HA : NNModule A) (HB : NNModule B) (a : A) (b : B) x :
  @nn_forward _ (@pair_module A B HA HB) (a, b) x =
  let* y := @nn_forward A HA a x in @nn_forward B HB b y.
Proof. reflexivity. Qed.

(** ** [nn.Sequential], against the interface only *)

Section Sequential.
Context {M : Type} `{NNModule M}.

Lemma seq_forward_app (l1 l2 : list M) x :
  seq_forward (l1 ++ l2) x = let* y := seq_forward l1 x in seq_forward l2 y.
Proof.
  revert x. induction l1 as [|m l1 IH]; intros x; simpl; [done|].
  destruct (nn_forward m x); simpl; auto.
Qed.

(** A property of shapes that every module of the list maps to itself
    (and succeeds on) holds of the whole [nn.Sequential]. *)
Lemma seq_forward_inv (P : shape -> Prop) (l : list M) :
  (forall m x, m ∈ l -> P x -> exists y, nn_forward m x = Ok y /\ P y) ->
  forall x, P x -> exists y, seq_forward l x = Ok y /\ P y.
Proof.
  induction l as [|m l IH]; intros Hl x Hx; simpl; [eauto|].
  destruct (Hl m x) as (y & Hy & HPy); [set_solver|done|].
  rewrite Hy. simpl. apply IH; [|done].
  intros m' x' Hm'. apply Hl. set_solver.
Qed.
End Sequential.

#[export] Hint Resolve out_size_down out_size_pool : srm.

(** [shape_steps]: run a chain of layer forwards whose closed forms
    apply, discharging the side conditions on sizes. *)
Ltac shape_side :=
  solve [ split; cbn; lia | cbn; lia | cbn; auto with srm
        | cbn; match goal with |- 1 <= down _ _ => apply down_pos end ].

Ltac shape_steps :=
  repeat (first
    [ progress cbn [sN sC sH sW conv_in conv_out conv_k conv_s conv_p
                   bn_features fst snd]
    | rewrite res_bind_Ok
    | rewrite nn_forward_pair | rewrite nn_forward_conv2d
    | rewrite nn_forward_batchnorm2d | rewrite nn_forward_relu
    | rewrite conv2d_forward_down by shape_side
    | rewrite batchnorm2d_forward_ok by shape_side
    | rewrite relu_forward_ok | rewrite add_inplace_same | rewrite res_bind_Ok_r
    | rewrite down_1 by shape_side ]).
