(* ===== verification/Bottleneck.v ===== *)
(** * The residual block [Bottleneck] and the group builder [_make_layer]

    [Module Bottleneck] is the class [Bottleneck] of
    [src/model/SRM_model.py] (lines 8-44): its constructor [init] records
    the six layers it creates, and [forward] is its forward method on
    shapes, in the order of the source (main path, then the shortcut,
    then the in-place addition and the last ReLU).  [make_layer] is the
    method [_make_layer] of [Stage1] and [Stage2] (lines 81-96 and
    139-154, the same text), which reads and updates [self.inplanes]: it
    takes the attribute's value and returns the new one with the group.

    The theorems show that the guard of [_make_layer] (a projection
    shortcut exactly when the stride or the width changes) makes every
    group it builds shape-correct at every spatial size, and what each
    block computes on every branch. *)

From S2P Require Import Prelude Layers.

Module Bottleneck.

(** [expansion = 4] (line 9). *)
Definition expansion : nat := 4.

(** The shortcut projection is an [nn.Sequential(Conv2d, BatchNorm2d)]. *)
Abbreviation Downsample := (Conv2d * BatchNorm2d)%type.

Record t : Type := mk {
  conv1 : Conv2d; bn1 : BatchNorm2d;
  conv2 : Conv2d; bn2 : BatchNorm2d;
  conv3 : Conv2d; bn3 : BatchNorm2d;
  relu : ReLU;
  downsample : option Downsample;
  stride : nat }.

Definition init (inplanes planes stride : nat) (downsample : option Downsample) : t :=
  {| conv1 := Conv2d_ inplanes planes 1 1 0 false;
     bn1 := BatchNorm2d_ planes;
     conv2 := Conv2d_ planes planes 3 stride 1 false;
     bn2 := BatchNorm2d_ planes;
     conv3 := Conv2d_ planes (planes * 4) 1 1 0 false;
     bn3 := BatchNorm2d_ (planes * 4);
     relu := ReLU_;
     downsample := downsample;
     stride := stride |}.

Definition forward (b : t) (x : shape) : res shape :=
  let residual := x in
  let* out := conv2d_forward (conv1 b) x in
  let* out := batchnorm2d_forward (bn1 b) out in
  let* out := relu_forward (relu b) out in
  let* out := conv2d_forward (conv2 b) out in
  let* out := batchnorm2d_forward (bn2 b) out in
  let* out := relu_forward (relu b) out in
  let* out := conv2d_forward (conv3 b) out in
  let* out := batchnorm2d_forward (bn3 b) out in
  let* residual :=
    match downsample b with
    | Some d => nn_forward d x
    | None => Ok residual
    end in
  let* out := add_inplace out residual in
  relu_forward (relu b) out.

End Bottleneck.

#[export] Instance Bottleneck_module : NNModule Bottleneck.t := Bottleneck.forward.

Lemma nn_forward_bottleneck b x : nn_forward b x = Bottleneck.forward b x.
Proof. reflexivity. Qed.

(** [_make_layer(block, planes, blocks, stride)] with [block = Bottleneck]:
    from the current [self.inplanes], the group and the new value of
    [self.inplanes]. *)
Definition make_layer (inplanes planes blocks stride : nat)
    : list Bottleneck.t * nat :=
  let downsample :=
    if negb (stride =? 1) || negb (inplanes =? planes * Bottleneck.expansion)
    then Some (Conv2d_ inplanes (planes * Bottleneck.expansion) 1 stride 0 false,
               BatchNorm2d_ (planes * Bottleneck.expansion))
    else None in
  let first := Bottleneck.init inplanes planes stride downsample in
  let inplanes := planes * Bottleneck.expansion in
  (first :: map (fun _ => Bottleneck.init inplanes planes 1 None) (seq 1 (blocks - 1)),
   inplanes).

(** ** What a block computes *)

Section BlockShapes.
Context (inplanes planes s : nat) (x : shape).
Hypotheses (Hs : 1 <= s) (HC : sC x = inplanes) (Hh : 1 <= sH x) (Hw : 1 <= sW x).

(** The main path maps [(N, inplanes, H, W)] to
    [(N, 4 planes, down s H, down s W)]; what remains is the shortcut. *)
Lemma forward_init ds :
  Bottleneck.forward (Bottleneck.init inplanes planes s ds) x =
  let* r := match ds with Some d => nn_forward d x | None => Ok x end in
  add_inplace (Shape (sN x) (planes * 4) (down s (sH x)) (down s (sW x))) r.
Proof.
  unfold Bottleneck.forward, Bottleneck.init; cbn [Bottleneck.conv1 Bottleneck.bn1
    Bottleneck.conv2 Bottleneck.bn2 Bottleneck.conv3 Bottleneck.bn3
    Bottleneck.relu Bottleneck.downsample].
  shape_steps.
  destruct ds as [d|]; [destruct (nn_forward d x)|];
    cbn [res_bind relu_forward]; try reflexivity; apply res_bind_Ok_r.

Qed.

(** With the projection [_make_layer] builds, the shortcut has the
    shape of the main path. *)
Lemma forward_init_projection :
  Bottleneck.forward
    (Bottleneck.init inplanes planes s
       (Some (Conv2d_ inplanes (planes * 4) 1 s 0 false, BatchNorm2d_ (planes * 4)))) x =
  Ok (Shape (sN x) (planes * 4) (down s (sH x)) (down s (sW x))).
Proof.
  rewrite forward_init. shape_steps. reflexivity.
Qed.

End BlockShapes.

(** With the identity shortcut and an input that already has the
    output's width [4 planes], a stride-1 block keeps the shape. *)
Lemma forward_init_identity inplanes planes x :
  sC x = inplanes -> 1 <= sH x -> 1 <= sW x -> inplanes = planes * 4 ->
  Bottleneck.forward (Bottleneck.init inplanes planes 1 None) x =
  Ok (Shape (sN x) (planes * 4) (sH x) (sW x)).
Proof.
  intros HC Hh Hw Hi. rewrite forward_init by lia. rewrite res_bind_Ok, !down_1 by lia.
  destruct x as [n c h w]; cbn in *; subst. apply add_inplace_same.
Qed.

(** C12: without a projection, a block whose input width differs from
    [4 planes] (and is not 1, which broadcasts) fails at the in-place
    addition: the second half of the guard of [_make_layer] is needed. *)
Lemma forward_init_identity_width inplanes planes x :
  sC x = inplanes -> 1 <= sH x -> 1 <= sW x ->
  inplanes <> planes * 4 -> inplanes <> 1 ->
  Bottleneck.forward (Bottleneck.init inplanes planes 1 None) x = Err AddMismatch.
Proof.
  intros HC Hh Hw Hi H1. rewrite forward_init by lia. rewrite res_bind_Ok.
  unfold add_inplace, bcast. cbn [sN sC sH sW].
  rewrite HC, (proj2 (Nat.eqb_neq _ _) Hi), (proj2 (Nat.eqb_neq _ _) H1).
  by rewrite !andb_false_r, andb_false_l.
Qed.

(** C13: without a projection, a strided block on an input larger than
    one pixel fails at the addition: the first half of the guard is
    needed. *)
Lemma forward_init_identity_stride inplanes planes s x :
  2 <= s -> sC x = inplanes -> 2 <= sH x -> 1 <= sW x ->
  Bottleneck.forward (Bottleneck.init inplanes planes s None) x = Err AddMismatch.
Proof.
  intros Hs HC Hh Hw. rewrite forward_init by lia. rewrite res_bind_Ok.
  unfold add_inplace, bcast. cbn [sN sC sH sW].
  assert (down s (sH x) < sH x).
  { unfold down. pose proof (Nat.div_le_compat_l (sH x - 1) 2 s ltac:(lia)). nat_div_lia. }
  rewrite (proj2 (Nat.eqb_neq (sH x) (down s (sH x)))) by lia.
  rewrite (proj2 (Nat.eqb_neq (sH x) 1)) by lia.
  by rewrite andb_false_r.
Qed.

Lemma forward_init_identity_width_witness :
  Bottleneck.forward (Bottleneck.init 64 64 1 None) (Shape 1 64 96 96) = Err AddMismatch.
Proof. apply forward_init_identity_width; cbn; lia. Defined.

Lemma forward_init_identity_stride_witness :
  Bottleneck.forward (Bottleneck.init 256 128 2 None) (Shape 1 256 96 96) = Err AddMismatch.
Proof. apply forward_init_identity_stride; cbn; lia. Defined.

(** The blocks after the first keep the shape of the group's output. *)
Lemma rest_blocks_forward planes (l : list nat) y :
  sC y = planes * 4 -> 1 <= sH y -> 1 <= sW y ->
  seq_forward (map (fun _ => Bottleneck.init (planes * 4) planes 1 None) l) y = Ok y.
Proof.
  intros HC Hh Hw.
  destruct (seq_forward_inv (fun z => z = y)
              (map (fun _ => Bottleneck.init (planes * 4) planes 1 None) l))
    with (x := y) as (z & Hz & ->); [|done|done].
  intros m z Hm ->. apply list_elem_of_In, in_map_iff in Hm as (i & <- & _).
  exists y. split; [|done].
  rewrite nn_forward_bottleneck, forward_init_identity by done.
  by destruct y; cbn in *; subst.
Qed.

(** ** Groups built by [_make_layer] *)

(** The group's forward, the lemma the backbones use. *)
Lemma make_layer_seq inplanes planes blocks stride x :
  1 <= stride -> sC x = inplanes -> 1 <= sH x -> 1 <= sW x ->
  seq_forward (make_layer inplanes planes blocks stride).1 x =
    Ok (Shape (sN x) (planes * 4) (down stride (sH x)) (down stride (sW x))).
Proof.
  intros Hs HC Hh Hw.
  unfold make_layer, Bottleneck.expansion. cbn [fst seq_forward].
  rewrite nn_forward_bottleneck.
  destruct (negb (stride =? 1) || negb (inplanes =? planes * 4)) eqn:Hguard.
  - rewrite forward_init_projection by done. rewrite res_bind_Ok.
    apply rest_blocks_forward; cbn; auto using down_pos.
  - apply orb_false_iff in Hguard as [Hs1 Hi].
    apply negb_false_iff, Nat.eqb_eq in Hs1, Hi. subst stride.
    rewrite forward_init_identity, res_bind_Ok, !down_1 by done.
    by apply rest_blocks_forward.
Qed.

(** C2: every group built by [_make_layer] is shape-correct at every
    spatial size: from [self.inplanes] channels it produces
    [4 planes] channels at the strided size, and it leaves
    [self.inplanes = 4 planes] for the next group. *)
Theorem make_layer_forward inplanes planes blocks stride x :
  1 <= stride -> sC x = inplanes -> 1 <= sH x -> 1 <= sW x ->
  (make_layer inplanes planes blocks stride).2 = planes * 4 /\
  seq_forward (make_layer inplanes planes blocks stride).1 x =
    Ok (Shape (sN x) (planes * 4) (down stride (sH x)) (down stride (sW x))).
Proof. intros. split; [reflexivity|]. by apply make_layer_seq. Qed.

(** The group [layer2] of ResNet-50 on the [96 x 96] output of [layer1]. *)
Lemma make_layer_forward_witness :
  (make_layer 256 128 4 2).2 = 512 /\
  seq_forward (make_layer 256 128 4 2).1 (Shape 1 256 96 96) = Ok (Shape 1 512 48 48).
Proof. apply (make_layer_forward 256 128 4 2 (Shape 1 256 96 96)); cbn; lia. Defined.

(** C21: [_make_layer] builds [max 1 blocks] blocks: the first block is
    appended before the loop [for i in range(1, blocks)], so a depth of
    [0] still gives one block. *)
Theorem make_layer_length inplanes planes blocks stride :
  length (make_layer inplanes planes blocks stride).1 = Nat.max 1 blocks.
Proof. unfold make_layer. cbn [fst length]. rewrite length_map, length_seq. lia. Qed.

Lemma make_layer_length_witness :
  length (make_layer 64 64 0 1).1 = 1 /\ length (make_layer 64 64 3 1).1 = 3.
Proof. split; [apply (make_layer_length 64 64 0 1)|apply (make_layer_length 64 64 3 1)]. Defined.
