(* ===== verification/PPM.v ===== *)
(** * The pyramid pooling module [PPM] (lines 167-201)

    [PPM.init] is the constructor: four [nn.Sequential(AvgPool2d,
    Conv2d)] branches with windows 24, 12, 8 and 4 (the "1*1", "2*2",
    "3*3" and "6*6 bins" of the source's comments).  [PPM.forward] runs
    each branch, resizes it to [24 x 24] and concatenates the input with
    the four results.  The theorems give the exact set of inputs the
    forward accepts, the bins of the four branches, and the error on
    every other input. *)

From S2P Require Import Prelude Layers.

Module PPM.

Abbreviation Branch := (AvgPool2d * Conv2d)%type.

Record t : Type := mk {
  block1 : Branch; block2 : Branch; block3 : Branch; block4 : Branch }.

Definition init : t :=
  {| block1 := (AvgPool2d_ 24 24, Conv2d_ 1024 512 1 1 0 true);
     block2 := (AvgPool2d_ 12 12, Conv2d_ 1024 512 1 1 0 true);
     block3 := (AvgPool2d_ 8 8, Conv2d_ 1024 512 1 1 0 true);
     block4 := (AvgPool2d_ 4 4, Conv2d_ 1024 512 1 1 0 true) |}.

Definition forward (p : t) (x : shape) : res shape :=
  let* x1 := nn_forward (block1 p) x in
  let* x1 := interpolate 24 x1 in
  let* x2 := nn_forward (block2 p) x in
  let* x2 := interpolate 24 x2 in
  let* x3 := nn_forward (block3 p) x in
  let* x3 := interpolate 24 x3 in
  let* x4 := nn_forward (block4 p) x in
  let* x4 := interpolate 24 x4 in
  cat1 [x; x1; x2; x3; x4].

End PPM.

#[export] Instance PPM_module : NNModule PPM.t := PPM.forward.

Lemma nn_forward_ppm p x : nn_forward p x = PPM.forward p x.
Proof. reflexivity. Qed.

(** ** One branch *)

Lemma nn_forward_avgpool2d a x : nn_forward a x = avgpool2d_forward a x.
Proof. reflexivity. Qed.

(** A branch with window [k] on a [1024]-channel input at least [k]
    wide: [512] channels on the [H / k] by [W / k] grid of bins. *)
Lemma branch_forward k x :
  1 <= k <= sH x -> k <= sW x -> sC x = 1024 ->
  nn_forward ((AvgPool2d_ k k, Conv2d_ 1024 512 1 1 0 true) : PPM.Branch) x =
  Ok (Shape (sN x) 512 (sH x / k) (sW x / k)).
Proof.
  intros Hh Hw HC.
  rewrite nn_forward_pair, nn_forward_avgpool2d, avgpool2d_forward_ok by (cbn; lia).
  assert (1 <= sH x / k /\ 1 <= sW x / k) as [Hh' Hw'] by (split; apply Nat.div_str_pos; lia).
  rewrite res_bind_Ok, nn_forward_conv2d, conv2d_forward_down by (try split; cbn; lia).
  cbn [sN sC sH sW conv_out conv_s]. by rewrite !down_1.
Qed.

(** A branch on an input narrower than its window fails. *)
Lemma branch_forward_small k c x :
  sH x < k -> nn_forward ((AvgPool2d_ k k, c) : PPM.Branch) x = Err (KernelTooLarge k (sH x + 0)).
Proof.
  intros Hh. rewrite nn_forward_pair, nn_forward_avgpool2d. unfold avgpool2d_forward.
  cbn [ap_k ap_s]. by rewrite out_size_pool_small.
Qed.

Lemma branch_forward_small_w k c x :
  k <= sH x -> 1 <= k -> sW x < k ->
  nn_forward ((AvgPool2d_ k k, c) : PPM.Branch) x = Err (KernelTooLarge k (sW x + 0)).
Proof.
  intros Hh Hk Hw. rewrite nn_forward_pair, nn_forward_avgpool2d. unfold avgpool2d_forward.
  cbn [ap_k ap_s]. rewrite out_size_pool, res_bind_Ok by lia. by rewrite out_size_pool_small.
Qed.

(** A branch on an input of the wrong width fails at its convolution. *)
Lemma branch_forward_channels k x :
  1 <= k <= sH x -> k <= sW x -> sC x <> 1024 ->
  nn_forward ((AvgPool2d_ k k, Conv2d_ 1024 512 1 1 0 true) : PPM.Branch) x =
  Err (ChannelMismatch 1024 (sC x)).
Proof.
  intros Hh Hw HC.
  rewrite nn_forward_pair, nn_forward_avgpool2d, avgpool2d_forward_ok by (cbn; lia).
  rewrite res_bind_Ok, nn_forward_conv2d, conv2d_forward_channels; cbn; done.
Qed.

(** ** The whole module *)

(** On an input wide enough for every window and of the right width,
    the four branches give [512]-channel [24 x 24] maps and what remains
    is the concatenation. *)
Lemma forward_wide x :
  24 <= sH x -> 24 <= sW x -> sC x = 1024 ->
  PPM.forward PPM.init x =
  cat1 [x; Shape (sN x) 512 24 24; Shape (sN x) 512 24 24;
        Shape (sN x) 512 24 24; Shape (sN x) 512 24 24].
Proof.
  intros Hh Hw HC. unfold PPM.forward, PPM.init.
  cbn [PPM.block1 PPM.block2 PPM.block3 PPM.block4].
  rewrite !branch_forward by lia.
  assert (forall k, 1 <= k <= 24 -> 1 <= sH x / k /\ 1 <= sW x / k) as Hk
    by (intros; split; apply Nat.div_str_pos; lia).
  pose proof (Hk 24 ltac:(lia)); pose proof (Hk 12 ltac:(lia));
  pose proof (Hk 8 ltac:(lia)); pose proof (Hk 4 ltac:(lia)). destruct_and!.
  repeat (first [ rewrite res_bind_Ok
                | rewrite interpolate_ok by (cbn; first [assumption | lia]) ]).
  reflexivity.
Qed.

(** What the module accepts: [1024]-channel maps of [24 x 24]. *)
Lemma forward_accepts x :
  sC x = 1024 -> sH x = 24 -> sW x = 24 ->
  PPM.forward PPM.init x = Ok (Shape (sN x) 3072 24 24).
Proof.
  intros HC Hh Hw.
  rewrite forward_wide, cat1_ok by (repeat constructor; cbn; lia).
  cbn. by rewrite HC, Hh, Hw.
Qed.

(** Nothing else: every other input raises. *)
Lemma forward_inv x y :
  PPM.forward PPM.init x = Ok y -> sC x = 1024 /\ sH x = 24 /\ sW x = 24.
Proof.
  intros Hf.
  destruct (lt_dec (sH x) 24) as [Hh|Hh].
  { unfold PPM.forward in Hf. cbn [PPM.init PPM.block1] in Hf.
    by rewrite branch_forward_small in Hf. }
  destruct (lt_dec (sW x) 24) as [Hw|Hw].
  { unfold PPM.forward in Hf. cbn [PPM.init PPM.block1] in Hf.
    rewrite branch_forward_small_w in Hf by lia. discriminate. }
  destruct (decide (sC x = 1024)) as [HC|HC].
  2:{ unfold PPM.forward in Hf. cbn [PPM.init PPM.block1] in Hf.
      rewrite branch_forward_channels in Hf by lia. discriminate. }
  destruct (decide (sH x = 24 /\ sW x = 24)) as [[H24 W24]|Hn]; [done|].
  rewrite forward_wide, cat1_mismatch in Hf by (try apply Exists_cons_hd; cbn; lia).
  discriminate.
Qed.

(** C3: the pyramid pooling module accepts exactly the
    [1024]-channel [24 x 24] feature maps, and maps them to
    [1024 + 4 * 512 = 3072] channels at [24 x 24]. *)
Theorem ppm_forward_iff x y :
  PPM.forward PPM.init x = Ok y <->
  sC x = 1024 /\ sH x = 24 /\ sW x = 24 /\ y = Shape (sN x) 3072 24 24.
Proof.
  split.
  - intros Hf. pose proof (forward_inv x y Hf) as (HC & Hh & Hw).
    rewrite forward_accepts in Hf by done. injection Hf as <-. auto.
  - intros (HC & Hh & Hw & ->). by apply forward_accepts.
Qed.

Lemma ppm_forward_iff_witness :
  PPM.forward PPM.init (Shape 2 1024 24 24) = Ok (Shape 2 3072 24 24).
Proof. apply ppm_forward_iff. cbn. auto. Defined.

(** C4: on every [1024]-channel map at least [24 x 24] the four
    branches pool with windows [24], [12], [8] and [4] (stride equal to
    the window): they give [512]-channel maps of [H / k] by [W / k] bins,
    so the [1 x 1], [2 x 2], [3 x 3] and [6 x 6] bins of the source's
    comments on the [24 x 24] map of the truncated backbone. *)
Theorem ppm_bins x :
  sC x = 1024 -> 24 <= sH x -> 24 <= sW x ->
  nn_forward (PPM.block1 PPM.init) x = Ok (Shape (sN x) 512 (sH x / 24) (sW x / 24)) /\
  nn_forward (PPM.block2 PPM.init) x = Ok (Shape (sN x) 512 (sH x / 12) (sW x / 12)) /\
  nn_forward (PPM.block3 PPM.init) x = Ok (Shape (sN x) 512 (sH x / 8) (sW x / 8)) /\
  nn_forward (PPM.block4 PPM.init) x = Ok (Shape (sN x) 512 (sH x / 4) (sW x / 4)).
Proof.
  intros HC HH HW. cbn [PPM.init PPM.block1 PPM.block2 PPM.block3 PPM.block4].
  repeat split; apply branch_forward; lia.
Qed.

Lemma ppm_bins_witness :
  nn_forward (PPM.block1 PPM.init) (Shape 2 1024 24 24) = Ok (Shape 2 512 1 1) /\
  nn_forward (PPM.block2 PPM.init) (Shape 2 1024 24 24) = Ok (Shape 2 512 2 2) /\
  nn_forward (PPM.block3 PPM.init) (Shape 2 1024 24 24) = Ok (Shape 2 512 3 3) /\
  nn_forward (PPM.block4 PPM.init) (Shape 2 1024 24 24) = Ok (Shape 2 512 6 6).
Proof. apply (ppm_bins (Shape 2 1024 24 24)); cbn; lia. Defined.

(** C14: the error the spec describes for a wrong resolution: a
    [1024]-channel input larger than [24 x 24] passes every branch and
    fails at the concatenation. *)
Lemma ppm_forward_too_wide x :
  sC x = 1024 -> 24 <= sH x -> 24 <= sW x -> (sH x <> 24 \/ sW x <> 24) ->
  PPM.forward PPM.init x = Err CatMismatch.
Proof.
  intros HC Hh Hw Hn. rewrite forward_wide by done.
  apply cat1_mismatch, Exists_cons_hd. cbn. lia.
Qed.

Lemma ppm_forward_too_wide_witness :
  PPM.forward PPM.init (Shape 1 1024 25 24) = Err CatMismatch.
Proof. apply ppm_forward_too_wide; cbn; lia. Defined.
