(* ===== verification/Backbone.v ===== *)
(** * The two backbones [Stage1] and [Stage2] (lines 47-165)

    [Stage1.init layers] is the constructor [Stage1(block, layers)] with
    [block = Bottleneck] up to the call of [_copy_params] (which
    [StateDict] models): the stem, the four groups built by
    [_make_layer] while [self.inplanes] goes 64, 256, 512, 1024, 2048,
    and the head [conv6]/[conv7].  Reading [layers[i]] raises
    [IndexError] on a short list.  [Stage2] is the same with three groups
    and the pyramid pooling module in place of the head.  The forward
    methods are on shapes.  The theorems show the shape each backbone
    computes at every input size, for every list of depths. *)

From S2P Require Import Prelude Layers Bottleneck PPM.

Lemma nn_forward_list {M} `{NNModule M} (l : list M) x : nn_forward l x = seq_forward l x.
Proof. reflexivity. Qed.

Lemma nn_forward_maxpool2d m x : nn_forward m x = maxpool2d_forward m x.
Proof. reflexivity. Qed.

Lemma make_layer_inplanes inplanes planes blocks stride :
  (make_layer inplanes planes blocks stride).2 = planes * 4.
Proof. reflexivity. Qed.

Module Stage1.

Record t : Type := mk {
  inplanes : nat;
  conv1 : Conv2d; bn1 : BatchNorm2d; relu : ReLU; maxpool : MaxPool2d;
  layer1 : list Bottleneck.t; layer2 : list Bottleneck.t;
  layer3 : list Bottleneck.t; layer4 : list Bottleneck.t;
  conv6 : Conv2d; conv7 : Conv2d }.

Definition init (layers : list nat) : res t :=
  let inplanes := 64 in
  let conv1 := Conv2d_ 3 64 7 2 3 false in
  let bn1 := BatchNorm2d_ 64 in
  let relu := ReLU_ in
  let maxpool := MaxPool2d_ 3 2 1 in
  let* n1 := py_index layers 0 in
  let layer1 := (make_layer inplanes 64 n1 1).1 in
  let inplanes := (make_layer inplanes 64 n1 1).2 in
  let* n2 := py_index layers 1 in
  let layer2 := (make_layer inplanes 128 n2 2).1 in
  let inplanes := (make_layer inplanes 128 n2 2).2 in
  let* n3 := py_index layers 2 in
  let layer3 := (make_layer inplanes 256 n3 2).1 in
  let inplanes := (make_layer inplanes 256 n3 2).2 in
  let* n4 := py_index layers 3 in
  let layer4 := (make_layer inplanes 512 n4 2).1 in
  let inplanes := (make_layer inplanes 512 n4 2).2 in
  let conv6 := Conv2d_ 2048 256 3 1 1 true in
  let conv7 := Conv2d_ 256 2 3 1 1 true in
  Ok {| inplanes := inplanes; conv1 := conv1; bn1 := bn1; relu := relu;
        maxpool := maxpool; layer1 := layer1; layer2 := layer2;
        layer3 := layer3; layer4 := layer4; conv6 := conv6; conv7 := conv7 |}.

Definition forward (s : t) (x : shape) : res shape :=
  let* x := nn_forward (conv1 s) x in
  let* x := nn_forward (bn1 s) x in
  let* x := nn_forward (relu s) x in
  let* x := nn_forward (maxpool s) x in
  let* x := nn_forward (layer1 s) x in
  let* x := nn_forward (layer2 s) x in
  let* x := nn_forward (layer3 s) x in
  let* x := nn_forward (layer4 s) x in
  let* x := nn_forward (conv6 s) x in
  let* x := nn_forward (conv7 s) x in
  Ok x.

End Stage1.

Module Stage2.

(** [Stage2._make_layer] has the text of [Stage1._make_layer]. *)
Definition make_layer := make_layer.

Record t : Type := mk {
  inplanes : nat;
  conv1 : Conv2d; bn1 : BatchNorm2d; relu : ReLU; maxpool : MaxPool2d;
  layer1 : list Bottleneck.t; layer2 : list Bottleneck.t;
  layer3 : list Bottleneck.t;
  ppm : PPM.t }.

Definition init (layers : list nat) : res t :=
  let inplanes := 64 in
  let conv1 := Conv2d_ 3 64 7 2 3 false in
  let bn1 := BatchNorm2d_ 64 in
  let relu := ReLU_ in
  let maxpool := MaxPool2d_ 3 2 1 in
  let* n1 := py_index layers 0 in
  let layer1 := (make_layer inplanes 64 n1 1).1 in
  let inplanes := (make_layer inplanes 64 n1 1).2 in
  let* n2 := py_index layers 1 in
  let layer2 := (make_layer inplanes 128 n2 2).1 in
  let inplanes := (make_layer inplanes 128 n2 2).2 in
  let* n3 := py_index layers 2 in
  let layer3 := (make_layer inplanes 256 n3 2).1 in
  let inplanes := (make_layer inplanes 256 n3 2).2 in
  let ppm := PPM.init in
  Ok {| inplanes := inplanes; conv1 := conv1; bn1 := bn1; relu := relu;
        maxpool := maxpool; layer1 := layer1; layer2 := layer2;
        layer3 := layer3; ppm := ppm |}.

Definition forward (s : t) (x : shape) : res shape :=
  let* x := nn_forward (conv1 s) x in
  let* x := nn_forward (bn1 s) x in
  let* x := nn_forward (relu s) x in
  let* x := nn_forward (maxpool s) x in
  let* x := nn_forward (layer1 s) x in
  let* x := nn_forward (layer2 s) x in
  let* x := nn_forward (layer3 s) x in
  let* x := nn_forward (ppm s) x in
  Ok x.

End Stage2.

#[export] Instance Stage1_module : NNModule Stage1.t := Stage1.forward.
#[export] Instance Stage2_module : NNModule Stage2.t := Stage2.forward.

(** ** Shapes computed by the backbones *)

(** [backbone_steps]: run the stem and the groups of a backbone. *)
Ltac backbone_steps :=
  repeat (first
    [ progress cbn [Stage1.conv1 Stage1.bn1 Stage1.relu Stage1.maxpool Stage1.layer1
        Stage1.layer2 Stage1.layer3 Stage1.layer4 Stage1.conv6 Stage1.conv7
        Stage2.conv1 Stage2.bn1 Stage2.relu Stage2.maxpool Stage2.layer1
        Stage2.layer2 Stage2.layer3 Stage2.ppm Stage2.make_layer
        mp_k mp_s mp_p Nat.mul Nat.add]
    | progress shape_steps
    | rewrite nn_forward_list | rewrite nn_forward_maxpool2d
    | rewrite make_layer_inplanes
    | rewrite maxpool2d_forward_down by shape_side
    | rewrite make_layer_seq by shape_side
    | rewrite down_down by first [lia | apply down_pos] ]).

(** [layers] has at least [n] entries: read them. *)
Lemma py_index_4 (layers : list nat) :
  4 <= length layers ->
  exists n1 n2 n3 n4, py_index layers 0 = Ok n1 /\ py_index layers 1 = Ok n2 /\
                      py_index layers 2 = Ok n3 /\ py_index layers 3 = Ok n4.
Proof.
  intros Hl.
  destruct (py_index_lt layers 0) as (n1 & H1 & _); [lia|].
  destruct (py_index_lt layers 1) as (n2 & H2 & _); [lia|].
  destruct (py_index_lt layers 2) as (n3 & H3 & _); [lia|].
  destruct (py_index_lt layers 3) as (n4 & H4 & _); [lia|].
  eauto 10.
Qed.

Lemma py_index_3 (layers : list nat) :
  3 <= length layers ->
  exists n1 n2 n3, py_index layers 0 = Ok n1 /\ py_index layers 1 = Ok n2 /\
                   py_index layers 2 = Ok n3.
Proof.
  intros Hl.
  destruct (py_index_lt layers 0) as (n1 & H1 & _); [lia|].
  destruct (py_index_lt layers 1) as (n2 & H2 & _); [lia|].
  destruct (py_index_lt layers 2) as (n3 & H3 & _); [lia|].
  eauto 10.
Qed.

(** The detail backbone built from any list of at least four depths. *)
Lemma stage1_init_ok layers :
  4 <= length layers ->
  exists n1 n2 n3 n4, Stage1.init layers =
    Ok {| Stage1.inplanes := 2048;
          Stage1.conv1 := Conv2d_ 3 64 7 2 3 false; Stage1.bn1 := BatchNorm2d_ 64;
          Stage1.relu := ReLU_; Stage1.maxpool := MaxPool2d_ 3 2 1;
          Stage1.layer1 := (make_layer 64 64 n1 1).1;
          Stage1.layer2 := (make_layer 256 128 n2 2).1;
          Stage1.layer3 := (make_layer 512 256 n3 2).1;
          Stage1.layer4 := (make_layer 1024 512 n4 2).1;
          Stage1.conv6 := Conv2d_ 2048 256 3 1 1 true;
          Stage1.conv7 := Conv2d_ 256 2 3 1 1 true |}.
Proof.
  intros Hl. destruct (py_index_4 layers Hl) as (n1 & n2 & n3 & n4 & H1 & H2 & H3 & H4).
  exists n1, n2, n3, n4. unfold Stage1.init. by rewrite H1, H2, H3, H4.
Qed.

Lemma stage2_init_ok layers :
  3 <= length layers ->
  exists n1 n2 n3, Stage2.init layers =
    Ok {| Stage2.inplanes := 1024;
          Stage2.conv1 := Conv2d_ 3 64 7 2 3 false; Stage2.bn1 := BatchNorm2d_ 64;
          Stage2.relu := ReLU_; Stage2.maxpool := MaxPool2d_ 3 2 1;
          Stage2.layer1 := (make_layer 64 64 n1 1).1;
          Stage2.layer2 := (make_layer 256 128 n2 2).1;
          Stage2.layer3 := (make_layer 512 256 n3 2).1;
          Stage2.ppm := PPM.init |}.
Proof.
  intros Hl. destruct (py_index_3 layers Hl) as (n1 & n2 & n3 & H1 & H2 & H3).
  exists n1, n2, n3. unfold Stage2.init. by rewrite H1, H2, H3.
Qed.

(** The detail backbone on an image of any size. *)
Lemma stage1_run layers x :
  4 <= length layers -> sC x = 3 -> 1 <= sH x -> 1 <= sW x ->
  exists s, Stage1.init layers = Ok s /\ Stage1.inplanes s = 2048 /\
    Stage1.forward s x = Ok (Shape (sN x) 2 (down 32 (sH x)) (down 32 (sW x))).
Proof.
  intros Hl HC Hh Hw. destruct (stage1_init_ok layers Hl) as (n1 & n2 & n3 & n4 & ->).
  eexists. split; [reflexivity|]. split; [reflexivity|].
  unfold Stage1.forward. backbone_steps. reflexivity.
Qed.

(** C5: for every list of at least four depths, [Stage1] is built,
    leaves [self.inplanes = 2048], and maps an [(N, 3, H, W)] image of
    any size to its [2]-channel map at stride 32. *)
Theorem stage1_forward layers x :
  4 <= length layers -> sC x = 3 -> 1 <= sH x -> 1 <= sW x ->
  exists s, Stage1.init layers = Ok s /\ Stage1.inplanes s = 2048 /\
    Stage1.forward s x = Ok (Shape (sN x) 2 (down 32 (sH x)) (down 32 (sW x))).
Proof. apply stage1_run. Qed.

Lemma stage1_forward_witness :
  exists s, Stage1.init [3; 4; 6; 3] = Ok s /\ Stage1.inplanes s = 2048 /\
    Stage1.forward s (Shape 1 3 384 384) = Ok (Shape 1 2 12 12).
Proof. apply (stage1_forward [3; 4; 6; 3] (Shape 1 3 384 384)); cbn; lia. Defined.

(** The context backbone up to its pyramid pooling: [1024] channels at
    stride 16. *)
Lemma stage2_trunk layers x :
  3 <= length layers -> sC x = 3 -> 1 <= sH x -> 1 <= sW x ->
  exists s, Stage2.init layers = Ok s /\ Stage2.inplanes s = 1024 /\
    Stage2.forward s x =
    PPM.forward PPM.init (Shape (sN x) 1024 (down 16 (sH x)) (down 16 (sW x))).
Proof.
  intros Hl HC Hh Hw. destruct (stage2_init_ok layers Hl) as (n1 & n2 & n3 & ->).
  eexists. split; [reflexivity|]. split; [reflexivity|].
  unfold Stage2.forward. backbone_steps. by rewrite nn_forward_ppm.
Qed.

(** C6: for every list of at least three depths, [Stage2] is built,
    leaves [self.inplanes = 1024], and on an [(N, 3, H, W)] image
    succeeds exactly when the stride-16 map is [24 x 24], giving the
    [3072]-channel context map. *)
Theorem stage2_forward layers x :
  3 <= length layers -> sC x = 3 -> 1 <= sH x -> 1 <= sW x ->
  exists s, Stage2.init layers = Ok s /\ Stage2.inplanes s = 1024 /\
    forall y, Stage2.forward s x = Ok y <->
      down 16 (sH x) = 24 /\ down 16 (sW x) = 24 /\ y = Shape (sN x) 3072 24 24.
Proof.
  intros Hl HC Hh Hw. destruct (stage2_trunk layers x) as (s & Hs & Hi & Hf); [done..|].
  exists s. do 2 (split; [done|]). intros y. rewrite Hf. split.
  - intros Hp. pose proof (forward_inv _ _ Hp) as (_ & H24 & W24). cbn in H24, W24.
    rewrite forward_accepts in Hp by done. injection Hp as <-. auto.
  - intros (H24 & W24 & ->). apply (forward_accepts (Shape _ _ _ _)); cbn; done.
Qed.

Lemma stage2_forward_witness :
  exists s, Stage2.init [3; 4; 6; 3] = Ok s /\ Stage2.inplanes s = 1024 /\
    forall y, Stage2.forward s (Shape 1 3 384 384) = Ok y <->
      down 16 384 = 24 /\ down 16 384 = 24 /\ y = Shape 1 3072 24 24.
Proof. apply (stage2_forward [3; 4; 6; 3] (Shape 1 3 384 384)); cbn; lia. Defined.

(** C7: a depth list too short for the groups a backbone builds raises
    [IndexError] at the first missing index, while [Stage2], which reads
    only three depths, accepts a list that [Stage1] rejects. *)
Theorem init_index_error layers :
  length layers < 4 ->
  Stage1.init layers = Err (IndexError (length layers) (length layers)) /\
  (length layers < 3 -> Stage2.init layers = Err (IndexError (length layers) (length layers))) /\
  (length layers = 3 -> is_ok (Stage2.init layers) = true).
Proof.
  intros Hl. unfold Stage1.init, Stage2.init.
  destruct layers as [|a [|b [|c [|d l]]]]; cbn in *; try lia; repeat split; intros; done || lia.
Qed.

Lemma init_index_error_witness :
  Stage1.init [3; 4; 6] = Err (IndexError 3 3) /\
  (3 < 3 -> Stage2.init [3; 4; 6] = Err (IndexError 3 3)) /\
  (3 = 3 -> is_ok (Stage2.init [3; 4; 6]) = true).
Proof. apply (init_index_error [3; 4; 6]). cbn. lia. Defined.

(** Both backbones start with the same stem, which checks the three
    colour channels and a non-empty image. *)
Lemma stem_rejects x :
  sC x <> 3 \/ sH x = 0 \/ (1 <= sH x /\ sW x = 0) ->
  exists e, conv2d_forward (Conv2d_ 3 64 7 2 3 false) x = Err e.
Proof.
  intros Hx. unfold conv2d_forward. cbn [conv_in conv_k conv_s conv_p].
  destruct (Nat.eqb_spec (sC x) 3) as [HC|HC]; [|by eexists].
  rewrite check_true, res_bind_Ok.
  destruct Hx as [|[Hh|[Hh Hw]]]; [done| |].
  - rewrite Hh. by eexists.
  - rewrite out_size_down, res_bind_Ok, Hw by lia. by eexists.
Qed.

Lemma stage1_rejects s x :
  Stage1.conv1 s = Conv2d_ 3 64 7 2 3 false ->
  sC x <> 3 \/ sH x = 0 \/ (1 <= sH x /\ sW x = 0) ->
  exists e, Stage1.forward s x = Err e.
Proof.
  intros Hc Hx. destruct (stem_rejects x Hx) as (e & He).
  exists e. unfold Stage1.forward. by rewrite nn_forward_conv2d, Hc, He.
Qed.
