(* ===== verification/SRMNet.v ===== *)
(** * The fusion network [SRM] (lines 204-227)

    [SRM.init] is the constructor: both backbones with the depths
    [[3, 4, 6, 3]] and the four convolutions of the fusion head.
    [SRM.forward] is its forward method on shapes, in the order of the
    source: [stage1], the auxiliary output [output1], [stage2] and its two
    reductions, the resize of [feature1] to [24 x 24], the concatenation,
    the head and the primary output [output2].

    The main theorem characterises the inputs the whole network accepts:
    exactly the 3-channel images whose height and width are both between
    369 and 384.  Both outputs are then [(N, 2, 384, 384)], whatever the
    input size in that range. *)

From S2P Require Import Prelude Layers Bottleneck PPM Backbone.

Module SRM.

Record t : Type := mk {
  stage1 : Stage1.t; stage2 : Stage2.t;
  conv1 : Conv2d; conv2 : Conv2d; conv6 : Conv2d; conv7 : Conv2d }.

Definition init : res t :=
  let* stage1 := Stage1.init [3; 4; 6; 3] in
  let* stage2 := Stage2.init [3; 4; 6; 3] in
  Ok {| stage1 := stage1; stage2 := stage2;
        conv1 := Conv2d_ 3072 256 3 1 1 true;
        conv2 := Conv2d_ 256 64 3 1 1 true;
        conv6 := Conv2d_ 66 256 3 1 1 true;
        conv7 := Conv2d_ 256 2 3 1 1 true |}.

Definition forward (m : t) (x : shape) : res (shape * shape) :=
  let* feature1 := nn_forward (stage1 m) x in
  let* output1 := interpolate 384 feature1 in
  let* feature2 := nn_forward (stage2 m) x in
  let* feature2 := nn_forward (conv1 m) feature2 in
  let* feature2 := nn_forward (conv2 m) feature2 in
  let* feature1 := interpolate 24 feature1 in
  let* feature := cat1 [feature1; feature2] in
  let* feature := nn_forward (conv6 m) feature in
  let* feature := nn_forward (conv7 m) feature in
  let* output2 := interpolate 384 feature in
  Ok (output1, output2).

End SRM.

Lemma nn_forward_stage1 s x : nn_forward s x = Stage1.forward s x.
Proof. reflexivity. Qed.

Lemma nn_forward_stage2 s x : nn_forward s x = Stage2.forward s x.
Proof. reflexivity. Qed.

(** The input sizes the context branch accepts. *)
Lemma down16_24 h : 1 <= h -> down 16 h = 24 <-> 369 <= h <= 384.
Proof. intros. unfold down. split; intros; nat_div_lia. Qed.

(** [srm_steps]: run the fusion head on known shapes. *)
Ltac srm_steps :=
  repeat (first
    [ progress cbn [SRM.conv1 SRM.conv2 SRM.conv6 SRM.conv7 SRM.stage1 SRM.stage2
                    sum_list_with]
    | progress backbone_steps
    | rewrite interpolate_ok by shape_side
    | rewrite cat1_ok by (repeat constructor; cbn; lia) ]).

Lemma srm_init_eq :
  exists s1 s2, Stage1.init [3; 4; 6; 3] = Ok s1 /\ Stage2.init [3; 4; 6; 3] = Ok s2 /\
    SRM.init = Ok (SRM.mk s1 s2 (Conv2d_ 3072 256 3 1 1 true) (Conv2d_ 256 64 3 1 1 true)
                          (Conv2d_ 66 256 3 1 1 true) (Conv2d_ 256 2 3 1 1 true)).
Proof. do 2 eexists. split; [reflexivity|]. split; reflexivity. Qed.

(** The network on a 3-channel non-empty image: it succeeds exactly
    when the context branch does, with two [384 x 384] outputs. *)
Lemma srm_run s1 s2 x o :
  Stage1.init [3; 4; 6; 3] = Ok s1 -> Stage2.init [3; 4; 6; 3] = Ok s2 ->
  sC x = 3 -> 1 <= sH x -> 1 <= sW x ->
  SRM.forward (SRM.mk s1 s2 (Conv2d_ 3072 256 3 1 1 true) (Conv2d_ 256 64 3 1 1 true)
                          (Conv2d_ 66 256 3 1 1 true) (Conv2d_ 256 2 3 1 1 true)) x = Ok o <->
  down 16 (sH x) = 24 /\ down 16 (sW x) = 24 /\
  o = (Shape (sN x) 2 384 384, Shape (sN x) 2 384 384).
Proof.
  intros E1 E2 HC Hh Hw.
  destruct (stage1_run [3; 4; 6; 3] x) as (s1' & E1' & _ & F1); [cbn; lia|done..|].
  destruct (stage2_trunk [3; 4; 6; 3] x) as (s2' & E2' & _ & F2); [cbn; lia|done..|].
  rewrite E1 in E1'; injection E1' as <-. rewrite E2 in E2'; injection E2' as <-.
  unfold SRM.forward. cbn [SRM.stage1 SRM.stage2].
  rewrite nn_forward_stage1, F1, res_bind_Ok, interpolate_ok, res_bind_Ok,
    nn_forward_stage2, F2 by shape_side.
  destruct (PPM.forward PPM.init _) as [y|e] eqn:Ep; cbn [res_bind].
  - pose proof (forward_inv _ _ Ep) as (_ & H24 & W24). cbn in H24, W24.
    rewrite forward_accepts in Ep by done. injection Ep as <-.
    srm_steps. split; [intros Ho; injection Ho as <-|intros (_ & _ & ->)]; auto.
  - split; [discriminate|]. intros (H24 & W24 & _).
    rewrite forward_accepts in Ep by done. discriminate.
Qed.

(** The inputs the built network accepts, and its output shapes. *)
Lemma srm_accepts :
  exists m, SRM.init = Ok m /\
  forall x o1 o2,
    SRM.forward m x = Ok (o1, o2) <->
    sC x = 3 /\ 369 <= sH x <= 384 /\ 369 <= sW x <= 384 /\
    o1 = Shape (sN x) 2 384 384 /\ o2 = Shape (sN x) 2 384 384.
Proof.
  destruct srm_init_eq as (s1 & s2 & E1 & E2 & ->). eexists. split; [reflexivity|].
  intros x o1 o2.
  destruct (decide (sC x = 3 /\ 1 <= sH x /\ 1 <= sW x)) as [(HC & Hh & Hw)|Hn].
  - rewrite srm_run by done. rewrite !down16_24 by done.
    split; [intros (? & ? & [=]); subst; auto|intros (? & ? & ? & -> & ->); auto].
  - split; [|lia]. intros Hf.
    destruct (stage1_rejects s1 x) as (e & He); [by injection E1 as <-|lia|].
    unfold SRM.forward in Hf. cbn [SRM.stage1] in Hf.
    by rewrite nn_forward_stage1, He in Hf.
Qed.

(** C1: the network is built, and it maps an [(N, C, H, W)] input to a
    pair of outputs exactly when [C = 3] and [369 <= H, W <= 384]; both
    outputs are then [(N, 2, 384, 384)].  Every other input raises. *)
Theorem srm_forward_iff :
  exists m, SRM.init = Ok m /\
  forall x o1 o2,
    SRM.forward m x = Ok (o1, o2) <->
    sC x = 3 /\ 369 <= sH x <= 384 /\ 369 <= sW x <= 384 /\
    o1 = Shape (sN x) 2 384 384 /\ o2 = Shape (sN x) 2 384 384.
Proof. exact srm_accepts. Qed.

(** The script's [__main__] (lines 230-233): an all-ones
    [(1, 3, 384, 384)] image through a fresh [SRM()]. *)
Definition main : res (shape * shape) :=
  let imgs := Shape 1 3 384 384 in
  let* model := SRM.init in
  SRM.forward model imgs.

(** The spec's end-to-end scenario: both outputs are [(1, 2, 384, 384)]. *)
Example main_shapes : main = Ok (Shape 1 2 384 384, Shape 1 2 384 384).
Proof. vm_compute. reflexivity. Qed.
