(* ===== verification/StateDict.v ===== *)
(** * Parameter dictionaries and [_copy_params] (lines 98-107, 156-164)

    A module's [state_dict()] maps each parameter and buffer name to a
    tensor; only the names and the sizes matter to the code, so a state
    is a [gmap string V] over values [V] of known size [vshape], and a
    module's [layout] maps each of its names to the size its layer gives
    it.  [load_state_dict] is the framework's strict loading (missing,
    unexpected and mis-sized keys raise); [copy_params] is the method
    [_copy_params] of [Stage1] and [Stage2]: keep the pretrained entries
    whose names the module has, update the module's dict with them, and
    load the result.

    The theorems (in the section, for any [V]) give the result of
    [copy_params] key by key, show that it preserves the well-formedness
    of the state, and that it raises exactly when a shared name has a
    different size: unknown names are skipped, never reported. *)

From stdpp Require Import gmap pretty.
From S2P Require Import Prelude Layers Bottleneck PPM Backbone SRMNet.

Section CopyParams.
Context {V : Type} (vshape : V -> list nat).

(** A state is well formed for a layout when it has exactly the
    layout's names, each with the layout's size. *)
Definition wf_state (layout : gmap string (list nat)) (st : gmap string V) : Prop :=
  forall k, vshape <$> st !! k = layout !! k.

Definition load_state_dict (layout : gmap string (list nat)) (sd : gmap string V)
    : res (gmap string V) :=
  let missing := elements (dom layout ∖ dom sd) in
  let unexpected := elements (dom sd ∖ dom layout) in
  let mismatched :=
    elements (filter (fun k => layout !! k <> vshape <$> sd !! k) (dom layout ∩ dom sd)) in
  match missing, unexpected, mismatched with
  | [], [], [] => Ok sd
  | _, _, _ => Err (StateDictError missing unexpected mismatched)
  end.

Definition copy_params (layout : gmap string (list nat)) (model_dict : gmap string V)
    (pretrained_dict : gmap string V) : res (gmap string V) :=
  let pretrained_dict := filter (fun kv => is_Some (model_dict !! kv.1)) pretrained_dict in
  let model_dict := pretrained_dict ∪ model_dict in
  load_state_dict layout model_dict.


(** The pretrained entries agree with the layout on the names they
    share with it. *)
Definition agrees (layout : gmap string (list nat)) (pre : gmap string V) : Prop :=
  forall k v, pre !! k = Some v -> is_Some (layout !! k) -> layout !! k = Some (vshape v).

(** The dict [_copy_params] loads: [model_dict.update(...)]. *)
Definition merged (st pre : gmap string V) : gmap string V :=
  filter (fun kv => is_Some (st !! kv.1)) pre ∪ st.

Lemma copy_params_merged layout st pre :
  copy_params layout st pre = load_state_dict layout (merged st pre).
Proof. reflexivity. Qed.

Lemma elements_nil (X : gset string) : elements X = [] -> forall k, k ∉ X.
Proof. intros HX k Hk. rewrite <- elem_of_elements, HX in Hk. set_solver. Qed.

Lemma load_state_dict_wf layout sd :
  wf_state layout sd -> load_state_dict layout sd = Ok sd.
Proof.
  intros Hwf. unfold load_state_dict.
  assert (dom layout = dom sd) as Hdom.
  { apply set_eq. intros k. by rewrite !elem_of_dom, <- (Hwf k), fmap_is_Some. }
  rewrite Hdom, difference_diag_L, elements_empty.
  assert (filter (fun k => layout !! k <> vshape <$> sd !! k) (dom sd ∩ dom sd) = ∅)
    as ->.
  { apply set_eq. intros k. rewrite elem_of_filter.
    split; [intros [Hne _]; by destruct Hne|intros Hk; by apply not_elem_of_empty in Hk]. }
  by rewrite elements_empty.
Qed.

Lemma load_state_dict_inv layout sd r :
  load_state_dict layout sd = Ok r -> r = sd /\ wf_state layout sd.
Proof.
  unfold load_state_dict.
  destruct (elements (dom layout ∖ dom sd)) as [|] eqn:Hm; [|discriminate].
  destruct (elements (dom sd ∖ dom layout)) as [|] eqn:Hu; [|discriminate].
  destruct (elements (filter _ _)) as [|] eqn:Hs; [|discriminate].
  intros [= <-]. split; [done|]. intros k.
  pose proof (elements_nil _ Hm k) as Hm'. pose proof (elements_nil _ Hu k) as Hu'.
  pose proof (elements_nil _ Hs k) as Hs'.
  rewrite elem_of_difference, !elem_of_dom in Hm', Hu'.
  rewrite elem_of_filter, elem_of_intersection, !elem_of_dom in Hs'.
  destruct (layout !! k) eqn:El, (sd !! k) eqn:Es; simpl in *; try naive_solver.
  destruct (decide (Some l = Some (vshape v))); [done|naive_solver].
Qed.

Lemma merged_lookup st pre k :
  merged st pre !! k =
  match st !! k with None => None | Some v0 => Some (default v0 (pre !! k)) end.
Proof.
  unfold merged. rewrite lookup_union, map_lookup_filter.
  destruct (st !! k) eqn:Est, (pre !! k) eqn:Epre; simpl; try done.
  - rewrite option_guard_True by (rewrite Est; eauto). done.
  - rewrite option_guard_False by (rewrite Est; intros []; discriminate). done.
Qed.

Lemma merged_wf layout st pre :
  wf_state layout st -> agrees layout pre -> wf_state layout (merged st pre).
Proof.
  intros Hwf Hag k. rewrite merged_lookup, <- (Hwf k).
  destruct (st !! k) as [v0|] eqn:Est; [|done].
  destruct (pre !! k) as [v|] eqn:Epre; [|done]. simpl.
  specialize (Hag k v Epre). rewrite <- (Hwf k), Est in Hag. simpl in Hag.
  symmetry. apply Hag. eauto.
Qed.

End CopyParams.

Section CopyParamsTheorems.
Context {V : Type} (vshape : V -> list nat).
Context (layout : gmap string (list nat)) (st pre : gmap string V).
Hypothesis Hwf : wf_state vshape layout st.

(** C8: [_copy_params] on a well-formed state and a checkpoint that
    agrees with the layout on shared names succeeds; the new state is
    well formed, every name the module shares with the checkpoint
    holds the checkpoint's value, and every other name keeps the
    module's own (random) value. *)
Theorem copy_params_spec :
  agrees vshape layout pre ->
  exists st', copy_params vshape layout st pre = Ok st' /\ wf_state vshape layout st' /\
    forall k, st' !! k =
      match st !! k with None => None | Some v0 => Some (default v0 (pre !! k)) end.
Proof.
  intros Hag. exists (merged st pre). split; [|split].
  - rewrite copy_params_merged. apply load_state_dict_wf, merged_wf; done.
  - by apply merged_wf.
  - apply merged_lookup.
Qed.

(** C9: the copy skips the checkpoint's unknown names instead of
    reporting them: it raises exactly when a name the module has comes
    with a different size, never for a missing or extra name. *)
Theorem copy_params_error :
  is_ok (copy_params vshape layout st pre) = false <->
  exists k v, pre !! k = Some v /\ is_Some (layout !! k) /\ layout !! k <> Some (vshape v).
Proof.
  split.
  - intros Hc. destruct (decide (exists k v, pre !! k = Some v /\ is_Some (layout !! k) /\
                                   layout !! k <> Some (vshape v))) as [|Hn]; [done|].
    rewrite copy_params_merged, load_state_dict_wf in Hc; [done|].
    apply merged_wf; [done|].
    intros k v Hk Hl. destruct (decide (layout !! k = Some (vshape v))); naive_solver.
  - intros (k & v & Hk & Hl & Hne).
    destruct (copy_params vshape layout st pre) as [r|] eqn:Hc; [|done].
    rewrite copy_params_merged in Hc. apply load_state_dict_inv in Hc as [_ Hm]. exfalso. apply Hne.
    specialize (Hm k). rewrite merged_lookup in Hm. rewrite <- Hm.
    rewrite <- (Hwf k) in Hl. destruct (st !! k); [|by destruct Hl].
    by rewrite Hk.
Qed.

End CopyParamsTheorems.

(** ** The names a module registers

    [params m] lists the [state_dict] entries of [m] with their sizes:
    the attribute name of each submodule, a dot, and the submodule's own
    names; [nn.Sequential] names its children [0], [1], ...  Layers
    without parameters ([ReLU], the pools) register none. *)

Class HasParams (M : Type) := params : M -> list (string * list nat).

Definition prefixed (p : string) (l : list (string * list nat)) : list (string * list nat) :=
  map (fun '(k, sz) => (dot p k, sz)) l.

#[export] Instance Conv2d_params : HasParams Conv2d := fun c =>
  ("weight", [conv_out c; conv_in c; conv_k c; conv_k c])
  :: (if conv_bias c then [("bias", [conv_out c])] else []).

#[export] Instance BatchNorm2d_params : HasParams BatchNorm2d := fun b =>
  [("weight", [bn_features b]); ("bias", [bn_features b]);
   ("running_mean", [bn_features b]); ("running_var", [bn_features b]);
   ("num_batches_tracked", [])].

#[export] Instance AvgPool2d_params : HasParams AvgPool2d := fun _ => [].
#[export] Instance ReLU_params : HasParams ReLU := fun _ => [].
#[export] Instance MaxPool2d_params : HasParams MaxPool2d := fun _ => [].

#[export] Instance pair_params {A B} `{HasParams A, HasParams B} : HasParams (A * B) :=
  fun ab => prefixed "0" (params ab.1) ++ prefixed "1" (params ab.2).

#[export] Instance list_params {M} `{HasParams M} : HasParams (list M) :=
  fun l => concat (imap (fun i m => prefixed (pretty i) (params m)) l).

#[export] Instance Bottleneck_params : HasParams Bottleneck.t := fun b =>
  prefixed "conv1" (params (Bottleneck.conv1 b)) ++ prefixed "bn1" (params (Bottleneck.bn1 b)) ++
  prefixed "conv2" (params (Bottleneck.conv2 b)) ++ prefixed "bn2" (params (Bottleneck.bn2 b)) ++
  prefixed "conv3" (params (Bottleneck.conv3 b)) ++ prefixed "bn3" (params (Bottleneck.bn3 b)) ++
  match Bottleneck.downsample b with
  | Some d => prefixed "downsample" (params d)
  | None => []
  end.

#[export] Instance PPM_params : HasParams PPM.t := fun p =>
  prefixed "block1" (params (PPM.block1 p)) ++ prefixed "block2" (params (PPM.block2 p)) ++
  prefixed "block3" (params (PPM.block3 p)) ++ prefixed "block4" (params (PPM.block4 p)).

#[export] Instance Stage1_params : HasParams Stage1.t := fun s =>
  prefixed "conv1" (params (Stage1.conv1 s)) ++ prefixed "bn1" (params (Stage1.bn1 s)) ++
  prefixed "layer1" (params (Stage1.layer1 s)) ++ prefixed "layer2" (params (Stage1.layer2 s)) ++
  prefixed "layer3" (params (Stage1.layer3 s)) ++ prefixed "layer4" (params (Stage1.layer4 s)) ++
  prefixed "conv6" (params (Stage1.conv6 s)) ++ prefixed "conv7" (params (Stage1.conv7 s)).

#[export] Instance Stage2_params : HasParams Stage2.t := fun s =>
  prefixed "conv1" (params (Stage2.conv1 s)) ++ prefixed "bn1" (params (Stage2.bn1 s)) ++
  prefixed "layer1" (params (Stage2.layer1 s)) ++ prefixed "layer2" (params (Stage2.layer2 s)) ++
  prefixed "layer3" (params (Stage2.layer3 s)) ++ prefixed "ppm" (params (Stage2.ppm s)).

#[export] Instance SRM_params : HasParams SRM.t := fun m =>
  prefixed "stage1" (params (SRM.stage1 m)) ++ prefixed "stage2" (params (SRM.stage2 m)) ++
  prefixed "conv1" (params (SRM.conv1 m)) ++ prefixed "conv2" (params (SRM.conv2 m)) ++
  prefixed "conv6" (params (SRM.conv6 m)) ++ prefixed "conv7" (params (SRM.conv7 m)).

Definition layout {M} `{HasParams M} (m : M) : gmap string (list nat) := list_to_map (params m).

(** The checkpoint [torchvision.models.resnet50(pretrained=True)]: the
    framework's ResNet-50 registers the same stem and groups (its
    [_make_layer] builds the same blocks) and a classifier [fc],
    [nn.Linear(2048, 1000)]. *)
Module ResNet50.
Definition stem_and_groups : list (string * list nat) :=
  prefixed "conv1" (params (Conv2d_ 3 64 7 2 3 false)) ++
  prefixed "bn1" (params (BatchNorm2d_ 64)) ++
  prefixed "layer1" (params (make_layer 64 64 3 1).1) ++
  prefixed "layer2" (params (make_layer 256 128 4 2).1) ++
  prefixed "layer3" (params (make_layer 512 256 6 2).1) ++
  prefixed "layer4" (params (make_layer 1024 512 3 2).1).

Definition params : list (string * list nat) :=
  stem_and_groups ++ [("fc.weight", [1000; 2048]); ("fc.bias", [1000])].

Definition layout : gmap string (list nat) := list_to_map params.
End ResNet50.

(** Two layouts give the same size to every name they share. *)
Definition layouts_agree (l1 l2 : gmap string (list nat)) : Prop :=
  map_Forall (fun k sz => default sz (l2 !! k) = sz) l1.

#[export] Instance layouts_agree_dec l1 l2 : Decision (layouts_agree l1 l2).
Proof. unfold layouts_agree. apply _. Defined.

Definition stage1_head : gset string :=
  list_to_set ["conv6.weight"; "conv6.bias"; "conv7.weight"; "conv7.bias"].

Definition stage2_head : gset string :=
  list_to_set ["ppm.block1.1.weight"; "ppm.block1.1.bias"; "ppm.block2.1.weight";
               "ppm.block2.1.bias"; "ppm.block3.1.weight"; "ppm.block3.1.bias";
               "ppm.block4.1.weight"; "ppm.block4.1.bias"].

Lemma stage1_layout_facts :
  exists s, Stage1.init [3; 4; 6; 3] = Ok s /\ NoDup (map fst (params s)) /\
    dom (layout s) ∖ dom ResNet50.layout = stage1_head /\
    layouts_agree (layout s) ResNet50.layout.
Proof.
  eexists. split; [reflexivity|]. split; [|split].
  - apply (bool_decide_unpack _). vm_compute. reflexivity.
  - apply (bool_decide_unpack _). vm_compute. reflexivity.
  - apply (bool_decide_unpack _). vm_compute. reflexivity.
Qed.

Lemma stage2_layout_facts :
  exists s, Stage2.init [3; 4; 6; 3] = Ok s /\ NoDup (map fst (params s)) /\
    dom (layout s) ∖ dom ResNet50.layout = stage2_head /\
    layouts_agree (layout s) ResNet50.layout.
Proof.
  eexists. split; [reflexivity|]. split; [|split].
  - apply (bool_decide_unpack _). vm_compute. reflexivity.
  - apply (bool_decide_unpack _). vm_compute. reflexivity.
  - apply (bool_decide_unpack _). vm_compute. reflexivity.
Qed.

Section Pretrained.
Context {V : Type} (vshape : V -> list nat).

(** [Stage1(Bottleneck, layers)]: the constructor up to
    [self._copy_params()], from the state [st] the framework
    initialised at random and the checkpoint [pre]. *)
Definition stage1_construct (layers : list nat) (st pre : gmap string V)
    : res (Stage1.t * gmap string V) :=
  let* s := Stage1.init layers in
  let* st' := copy_params vshape (layout s) st pre in
  Ok (s, st').

Definition stage2_construct (layers : list nat) (st pre : gmap string V)
    : res (Stage2.t * gmap string V) :=
  let* s := Stage2.init layers in
  let* st' := copy_params vshape (layout s) st pre in
  Ok (s, st').

Lemma wf_lookup_None layout st k :
  wf_state vshape layout st -> layout !! k = None -> st !! k = None.
Proof. intros Hwf Hk. specialize (Hwf k). rewrite Hk in Hwf. by apply fmap_None in Hwf. Qed.

Lemma wf_lookup_Some layout st k :
  wf_state vshape layout st -> k ∈ dom layout -> exists v, st !! k = Some v.
Proof.
  intros Hwf Hk. apply elem_of_dom in Hk. rewrite <- (Hwf k) in Hk.
  by apply fmap_is_Some in Hk.
Qed.

Lemma agrees_of_layouts l ref pre :
  layouts_agree l ref -> wf_state vshape ref pre -> agrees vshape l pre.
Proof.
  intros Hag Hpre k v Hk [sz Hsz]. rewrite Hsz. f_equal.
  specialize (Hag k sz Hsz). cbv beta in Hag. specialize (Hpre k). rewrite Hk in Hpre.
  simpl in Hpre. by rewrite <- Hpre in Hag.
Qed.

(** Copying the checkpoint into a module whose own names are [head]:
    those keep their values, every other name of the module takes the
    checkpoint's. *)
Lemma copy_from_checkpoint l ref head st pre :
  wf_state vshape l st -> wf_state vshape ref pre ->
  layouts_agree l ref -> dom l ∖ dom ref = head ->
  exists st', copy_params vshape l st pre = Ok st' /\ wf_state vshape l st' /\
    forall k, st' !! k = if decide (k ∈ head) then st !! k
                        else if decide (k ∈ dom l) then pre !! k else None.
Proof.
  intros Hst Hpre Hagl Hdiff.
  assert (agrees vshape l pre) as Hag by (by eapply agrees_of_layouts).
  exists (merged st pre). rewrite copy_params_merged, load_state_dict_wf by (by apply merged_wf).
  split; [done|]. split; [by apply merged_wf|]. intros k. rewrite merged_lookup.
  case_decide as Hh; [|case_decide as Hd].
  - rewrite <- Hdiff, elem_of_difference, not_elem_of_dom in Hh. destruct Hh as [_ Hn].
    rewrite (wf_lookup_None _ _ _ Hpre Hn). by destruct (st !! k).
  - destruct (wf_lookup_Some _ _ _ Hst Hd) as [v0 ->].
    assert (k ∈ dom ref) as Hr.
    { rewrite <- Hdiff, elem_of_difference in Hh.
      destruct (decide (k ∈ dom ref)); tauto. }
    by destruct (wf_lookup_Some _ _ _ Hpre Hr) as [v ->].
  - rewrite not_elem_of_dom in Hd. by rewrite (wf_lookup_None _ _ _ Hst Hd).
Qed.

(** C10: constructing [Stage1] with the depths [[3, 4, 6, 3]] copies
    the ResNet-50 checkpoint into every parameter and buffer except
    the four of the head [conv6]/[conv7], which keep their random
    values; the names are distinct and the copy never raises. *)
Theorem stage1_pretrained :
  exists s, Stage1.init [3; 4; 6; 3] = Ok s /\ NoDup (map fst (params s)) /\
  forall st pre, wf_state vshape (layout s) st -> wf_state vshape ResNet50.layout pre ->
    exists st', stage1_construct [3; 4; 6; 3] st pre = Ok (s, st') /\
      wf_state vshape (layout s) st' /\
      forall k, st' !! k = if decide (k ∈ stage1_head) then st !! k
                          else if decide (k ∈ dom (layout s)) then pre !! k else None.
Proof.
  destruct stage1_layout_facts as (s & Hs & Hnd & Hdiff & Hag).
  exists s. split; [done|]. split; [done|]. intros st pre Hst Hpre.
  destruct (copy_from_checkpoint (layout s) ResNet50.layout stage1_head st pre)
    as (st' & Hc & Hwf & Hk);
    [done..|].
  exists st'. unfold stage1_construct. rewrite Hs, res_bind_Ok, Hc. auto.
Qed.

(** C11: constructing [Stage2] copies the checkpoint into the stem and
    the three groups; the eight parameters of the pyramid pooling
    module's convolutions keep their random values, and the checkpoint's
    [layer4] and [fc] entries are skipped without error. *)
Theorem stage2_pretrained :
  exists s, Stage2.init [3; 4; 6; 3] = Ok s /\ NoDup (map fst (params s)) /\
  forall st pre, wf_state vshape (layout s) st -> wf_state vshape ResNet50.layout pre ->
    exists st', stage2_construct [3; 4; 6; 3] st pre = Ok (s, st') /\
      wf_state vshape (layout s) st' /\
      forall k, st' !! k = if decide (k ∈ stage2_head) then st !! k
                          else if decide (k ∈ dom (layout s)) then pre !! k else None.
Proof.
  destruct stage2_layout_facts as (s & Hs & Hnd & Hdiff & Hag).
  exists s. split; [done|]. split; [done|]. intros st pre Hst Hpre.
  destruct (copy_from_checkpoint (layout s) ResNet50.layout stage2_head st pre)
    as (st' & Hc & Hwf & Hk); [done..|].
  exists st'. unfold stage2_construct. rewrite Hs, res_bind_Ok, Hc. auto.
Qed.
End Pretrained.

(** ** Witnesses on concrete dicts (values are their own sizes) *)

Lemma wf_state_self (l : gmap string (list nat)) : wf_state id l l.
Proof. intros k. apply option_fmap_id. Qed.

Definition demo_layout : gmap string (list nat) := {[ "w" := [2] ]}.
Definition demo_checkpoint : gmap string (list nat) := {[ "w" := [2]; "fc" := [3] ]}.
Definition demo_bad_checkpoint : gmap string (list nat) := {[ "w" := [3] ]}.

Lemma demo_agrees : agrees id demo_layout demo_checkpoint.
Proof.
  intros k v Hk [sz Hsz]. unfold demo_layout in *.
  apply lookup_singleton_Some in Hsz as [<- <-].
  vm_compute in Hk. by injection Hk as <-.
Qed.

Lemma copy_params_spec_witness :
  wf_state id demo_layout demo_layout /\ agrees id demo_layout demo_checkpoint /\
  exists st', copy_params id demo_layout demo_layout demo_checkpoint = Ok st' /\
    wf_state id demo_layout st' /\
    forall k, st' !! k =
      match demo_layout !! k with None => None | Some v0 => Some (default v0 (demo_checkpoint !! k)) end.
Proof.
  split; [apply wf_state_self|]. split; [apply demo_agrees|].
  apply (copy_params_spec id demo_layout demo_layout demo_checkpoint (wf_state_self _)).
  apply demo_agrees.
Defined.



Lemma copy_params_error_witness :
  wf_state id demo_layout demo_layout /\
  is_ok (copy_params id demo_layout demo_layout demo_bad_checkpoint) = false.
Proof.
  split; [apply wf_state_self|].
  apply (copy_params_error id demo_layout demo_layout demo_bad_checkpoint (wf_state_self _)).
  exists "w"%string, [3]. split; [reflexivity|]. split; [eexists; reflexivity|].
  vm_compute. discriminate.
Defined.

Lemma stage1_pretrained_witness :
  exists s st', Stage1.init [3; 4; 6; 3] = Ok s /\
    wf_state id (layout s) (layout s) /\ wf_state id ResNet50.layout ResNet50.layout /\
    stage1_construct id [3; 4; 6; 3] (layout s) ResNet50.layout = Ok (s, st').
Proof.
  destruct (stage1_pretrained id) as (s & Hs & _ & H).
  destruct (H (layout s) ResNet50.layout) as (st' & Hc & _);
    [apply wf_state_self..|].
  exists s, st'. split; [done|]. split; [apply wf_state_self|].
  split; [apply wf_state_self|done].
Defined.

Lemma stage2_pretrained_witness :
  exists s st', Stage2.init [3; 4; 6; 3] = Ok s /\
    wf_state id (layout s) (layout s) /\ wf_state id ResNet50.layout ResNet50.layout /\
    stage2_construct id [3; 4; 6; 3] (layout s) ResNet50.layout = Ok (s, st').
Proof.
  destruct (stage2_pretrained id) as (s & Hs & _ & H).
  destruct (H (layout s) ResNet50.layout) as (st' & Hc & _);
    [apply wf_state_self..|].
  exists s, st'. split; [done|]. split; [apply wf_state_self|].
  split; [apply wf_state_self|done].
Defined.
