(* ===== verification/Tensor.v ===== *)
(** * Tensors with values

    A rank-4 tensor is its shape and a function from the indices
    (batch, channel, row, column) to exact rationals: the floating-point
    rounding of the framework is not modelled.  Two tensors are
    equivalent ([teq]) when they have the same shape and agree, up to
    [Qeq], at every index inside it; the numeric operations of [NumLayers]
    respect this equivalence.  [qsum] is the finite sum the convolution
    and pooling kernels compute, with the lemmas on sums they share. *)

From Stdlib Require Import QArith Qminmax Lqa.
From S2P Require Import Prelude Layers.

Record tensor : Type := Tensor {
  tsize : shape;
  tval : nat -> nat -> nat -> nat -> Q }.

Definition in_bounds (s : shape) (n c i j : nat) : Prop :=
  n < sN s /\ c < sC s /\ i < sH s /\ j < sW s.

Definition teq (a b : tensor) : Prop :=
  tsize a = tsize b /\
  forall n c i j, in_bounds (tsize a) n c i j -> (tval a n c i j == tval b n c i j)%Q.

#[export] Instance teq_equivalence : Equivalence teq.
Proof.
  split.
  - intros a. split; [done|]. intros. reflexivity.
  - intros a b [Hs Hv]. split; [done|]. intros n c i j Hb.
    rewrite <- Hs in Hb. symmetry. auto.
  - intros a b c [Hs1 Hv1] [Hs2 Hv2]. split; [congruence|]. intros n ch i j Hb.
    rewrite Hv1 by done. apply Hv2. by rewrite <- Hs1.
Qed.

(** ** Results of fallible tensor operations *)

Definition res_map {A B} (f : A -> B) (r : res A) : res B :=
  match r with Ok a => Ok (f a) | Err e => Err e end.

(** Two results are related when both fail with the same error or both
    succeed with related values. *)
Definition res_rel {A} (R : relation A) : relation (res A) :=
  fun r1 r2 =>
    match r1, r2 with
    | Ok a, Ok b => R a b
    | Err e1, Err e2 => e1 = e2
    | _, _ => False
    end.

#[export] Instance res_rel_equivalence {A} (R : relation A) `{!Equivalence R} :
  Equivalence (res_rel R).
Proof.
  split.
  - intros [a|e]; simpl; [reflexivity|done].
  - intros [a|e] [b|e']; simpl; intros H; try done; by symmetry.
  - intros [a|e] [b|e'] [c|e'']; simpl; intros H1 H2; try done; [by etrans|congruence].
Qed.

Lemma res_map_bind {A B C} (f : B -> C) (c : res A) (k : A -> res B) :
  res_map f (res_bind c k) = res_bind c (fun a => res_map f (k a)).
Proof. by destruct c. Qed.

(** The shape projection of a computation whose every step's shape is
    given by a shape computation. *)
Lemma res_map_bind_shape {A A' B B'} (proj : A -> A') (c : res A) (c' : res A')
    (k : A -> res B) (k' : A' -> res B') (pB : B -> B') :
  res_map proj c = c' -> (forall a, res_map pB (k a) = k' (proj a)) ->
  res_map pB (res_bind c k) = res_bind c' k'.
Proof. intros <- Hk. destruct c as [a|e]; simpl; [apply Hk|done]. Qed.

(** Binding related results to continuations that map related values
    to related results gives related results. *)
Lemma res_bind_rel {A B} (R : relation A) (S : relation B) c1 c2 (k1 k2 : A -> res B) :
  res_rel R c1 c2 -> (forall a b, R a b -> res_rel S (k1 a) (k2 b)) ->
  res_rel S (res_bind c1 k1) (res_bind c2 k2).
Proof. destruct c1, c2; simpl; intros; subst; auto; done. Qed.

(** Two tensors built on the same shape computation are equivalent when
    their value functions agree inside every shape it can return. *)
Lemma res_rel_build (c : res shape) (f g : shape -> nat -> nat -> nat -> nat -> Q) :
  (forall s, c = Ok s -> forall n ch i j, in_bounds s n ch i j -> (f s n ch i j == g s n ch i j)%Q) ->
  res_rel teq (let* s := c in Ok (Tensor s (f s))) (let* s := c in Ok (Tensor s (g s))).
Proof. destruct c as [s|e]; simpl; [|done]. intros H. split; [done|]. simpl. by apply H. Qed.

(** ** Finite sums *)

Fixpoint qsum (n : nat) (f : nat -> Q) : Q :=
  match n with
  | O => 0
  | S n => qsum n f + f n
  end.

Definition qnat (n : nat) : Q := inject_Z (Z.of_nat n).

Lemma qsum_ext n f g : (forall i, i < n -> (f i == g i)%Q) -> (qsum n f == qsum n g)%Q.
Proof.
  induction n as [|n IH]; intros Hfg; simpl; [reflexivity|].
  rewrite (IH ltac:(intros; apply Hfg; lia)), (Hfg n ltac:(lia)). reflexivity.
Qed.

Lemma qsum_1 f : (qsum 1 f == f 0%nat)%Q.
Proof. simpl. ring. Qed.

Lemma qsum_le n f g : (forall i, i < n -> (f i <= g i)%Q) -> (qsum n f <= qsum n g)%Q.
Proof.
  induction n as [|n IH]; intros Hfg; simpl; [lra|].
  pose proof (IH ltac:(intros; apply Hfg; lia)). pose proof (Hfg n ltac:(lia)). lra.
Qed.

Lemma qsum_const n c : (qsum n (fun _ => c) == qnat n * c)%Q.
Proof.
  induction n as [|n IH]; simpl qsum.
  - unfold qnat. simpl. ring.
  - rewrite IH. unfold qnat. rewrite Nat2Z.inj_succ, <- Z.add_1_r, inject_Z_plus. ring.
Qed.

Lemma qnat_nonneg n : (0 <= qnat n)%Q.
Proof. unfold qnat. change 0%Q with (inject_Z 0). rewrite <- Zle_Qle. lia. Qed.

Lemma qnat_pos n : 1 <= n -> (0 < qnat n)%Q.
Proof. intros. unfold qnat. change 0%Q with (inject_Z 0). rewrite <- Zlt_Qlt. lia. Qed.

(** A sum of values between [lo] and [hi] lies between [n lo] and [n hi]. *)
Lemma qsum_bounds n f lo hi :
  (forall i, i < n -> (lo <= f i <= hi)%Q) ->
  (qnat n * lo <= qsum n f <= qnat n * hi)%Q.
Proof.
  intros Hb. rewrite <- !qsum_const. split; apply qsum_le; intros i Hi; apply Hb, Hi.
Qed.

#[export] Hint Resolve qnat_nonneg : srm.
