(* ===== verification/NumLayers.v ===== *)
(** * The [torch.nn] layers on tensor values

    Each numeric layer first runs the shape rule of [Layers] (so it
    raises exactly when the shape rule does) and then gives the value of
    every output entry, as the framework computes it in exact
    arithmetic:
    - [conv2d_num]: bias plus the sum over input channels and the kernel
      window of weight times the zero-padded input;
    - [batchnorm2d_num]: inference mode, [(x - running_mean) *
      rsqrt(running_var + eps) * weight + bias], with the framework's
      reciprocal square root [rsqrt] a parameter of the section (it is not
      rational);
    - [relu_num], [maxpool2d_num] (maximum over the window's positions
      inside the input), [avgpool2d_num] (sum over the window over [k * k]);
    - [interpolate_num]: bilinear with [align_corners=True], the source
      index and weight of each output position computed by [src_index] as
      the framework's kernel does, including its copy path when the
      sizes are equal;
    - [cat1_num] and [add_inplace_num] (with broadcasting).
    A module runs in an environment [E]: the framework's [rsqrt] and a
    store [params E : string -> list nat -> Q] that gives each parameter
    (by the names of [StateDict]) at each index.  Each numeric layer's
    result has the shape its shape rule computes. *)

From Stdlib Require Import QArith Qminmax Qround Lqa.
From S2P Require Import Prelude Layers Tensor.

Record env : Type := Env { rsqrt : Q -> Q; params : string -> list nat -> Q }.

(** The environment of the submodule registered as [p]. *)
Definition sub (E : env) (p : string) : env := Env (rsqrt E) (fun k => params E (dot p k)).

(** The input seen through a zero padding of [p] on each side. *)
Definition padded (x : tensor) (p n c a b : nat) : Q :=
  if (p <=? a) && (a - p <? sH (tsize x)) && (p <=? b) && (b - p <? sW (tsize x))
  then tval x n c (a - p) (b - p) else 0.

Definition conv2d_num (cv : Conv2d) (E : env) (x : tensor) : res tensor :=
  let* s := conv2d_forward cv (tsize x) in
  Ok (Tensor s (fun n o i j =>
    ((if conv_bias cv then params E "bias" [o] else 0) +
     qsum (conv_in cv) (fun ci => qsum (conv_k cv) (fun ki => qsum (conv_k cv) (fun kj =>
       params E "weight" [o; ci; ki; kj] *
       padded x (conv_p cv) n ci (i * conv_s cv + ki) (j * conv_s cv + kj)))))%Q)).

(** [eps = 1e-5], the default of [nn.BatchNorm2d]. *)
Definition bn_eps : Q := 1 # 100000.

Definition batchnorm2d_num (b : BatchNorm2d) (E : env) (x : tensor) : res tensor :=
  let* s := batchnorm2d_forward b (tsize x) in
  Ok (Tensor s (fun n c i j =>
    ((tval x n c i j - params E "running_mean" [c])
     * rsqrt E (params E "running_var" [c] + bn_eps)
     * params E "weight" [c] + params E "bias" [c])%Q)).

Definition relu_num (x : tensor) : res tensor :=
  Ok (Tensor (tsize x) (fun n c i j => Qmax 0 (tval x n c i j))).

(** The values of the window of output [(i, j)] that lie inside the
    input (the padding is [-inf] for the maximum). *)
Definition window (x : tensor) (k s p n c i j : nat) : list Q :=
  flat_map (fun ki => flat_map (fun kj =>
    let a := i * s + ki in let b := j * s + kj in
    if (p <=? a) && (a - p <? sH (tsize x)) && (p <=? b) && (b - p <? sW (tsize x))
    then [tval x n c (a - p) (b - p)] else []) (seq 0 k)) (seq 0 k).

Definition qmax_list (l : list Q) : Q :=
  match l with [] => 0 | v :: vs => fold_left Qmax vs v end.

Definition maxpool2d_num (m : MaxPool2d) (x : tensor) : res tensor :=
  let* s := maxpool2d_forward m (tsize x) in
  Ok (Tensor s (fun n c i j => qmax_list (window x (mp_k m) (mp_s m) (mp_p m) n c i j))).

Definition avgpool2d_num (a : AvgPool2d) (x : tensor) : res tensor :=
  let* s := avgpool2d_forward a (tsize x) in
  Ok (Tensor s (fun n c i j =>
    (qsum (ap_k a) (fun ki => qsum (ap_k a) (fun kj =>
       tval x n c (i * ap_s a + ki) (j * ap_s a + kj))) / qnat (ap_k a * ap_k a))%Q)).

(** The source positions [i0 <= i1] and the weight [lambda1] of [i1]
    for output position [d] when resizing [isz] positions to [osz] with
    aligned corners: the scale [(isz - 1) / (osz - 1)], the source
    coordinate [scale * d], its floor clamped to the input, and the
    weight clamped to [[0, 1]]. *)
Definition src_index_lin (isz osz d : nat) : nat * nat * Q :=
  let scale := if 1 <? osz then (qnat (isz - 1) / qnat (osz - 1))%Q else 0%Q in
  let real := (scale * qnat d)%Q in
  let i0 := Nat.min (Z.to_nat (Qfloor real)) (isz - 1) in
  let lambda1 := Qmin (Qmax (real - qnat i0) 0) 1 in
  let i1 := i0 + (if i0 <? isz - 1 then 1 else 0) in
  (i0, i1, lambda1).

(** The kernel copies when the sizes are equal. *)
Definition src_index (isz osz d : nat) : nat * nat * Q :=
  if osz =? isz then (d, d, 0%Q) else src_index_lin isz osz d.

Definition bilinear (v : nat -> nat -> Q) (H W osz i j : nat) : Q :=
  let '(h0, h1, hl1) := src_index H osz i in
  let '(w0, w1, wl1) := src_index W osz j in
  ((1 - hl1) * ((1 - wl1) * v h0 w0 + wl1 * v h0 w1) +
   hl1 * ((1 - wl1) * v h1 w0 + wl1 * v h1 w1))%Q.

Definition interpolate_num (size : nat) (x : tensor) : res tensor :=
  let* s := interpolate size (tsize x) in
  Ok (Tensor s (fun n c i j =>
    bilinear (tval x n c) (sH (tsize x)) (sW (tsize x)) size i j)).

Fixpoint cat_val (xs : list tensor) (n c i j : nat) : Q :=
  match xs with
  | [] => 0
  | x :: xs => if c <? sC (tsize x) then tval x n c i j else cat_val xs n (c - sC (tsize x)) i j
  end.

Definition cat1_num (xs : list tensor) : res tensor :=
  let* s := cat1 (map tsize xs) in
  Ok (Tensor s (cat_val xs)).

(** A broadcast dimension of size 1 is read at index 0. *)
Definition bidx (d k : nat) : nat := if d =? 1 then 0 else k.

Definition add_inplace_num (out r : tensor) : res tensor :=
  let* s := add_inplace (tsize out) (tsize r) in
  Ok (Tensor s (fun n c i j =>
    (tval out n c i j +
     tval r (bidx (sN (tsize r)) n) (bidx (sC (tsize r)) c)
            (bidx (sH (tsize r)) i) (bidx (sW (tsize r)) j))%Q)).

(** ** Shapes of the numeric layers *)

(** Every numeric layer is its shape rule followed by a value function. *)
Lemma res_map_build (c : res shape) (f : shape -> nat -> nat -> nat -> nat -> Q) :
  res_map tsize (let* s := c in Ok (Tensor s (f s))) = c.
Proof. by destruct c. Qed.

Lemma conv2d_num_shape cv E x : res_map tsize (conv2d_num cv E x) = conv2d_forward cv (tsize x).
Proof. apply (res_map_build _ (fun s n o i j => _)). Qed.
Lemma batchnorm2d_num_shape b E x :
  res_map tsize (batchnorm2d_num b E x) = batchnorm2d_forward b (tsize x).
Proof. apply (res_map_build _ (fun s n o i j => _)). Qed.
Lemma maxpool2d_num_shape m x : res_map tsize (maxpool2d_num m x) = maxpool2d_forward m (tsize x).
Proof. apply (res_map_build _ (fun s n o i j => _)). Qed.
Lemma avgpool2d_num_shape a x : res_map tsize (avgpool2d_num a x) = avgpool2d_forward a (tsize x).
Proof. apply (res_map_build _ (fun s n o i j => _)). Qed.
Lemma interpolate_num_shape sz x : res_map tsize (interpolate_num sz x) = interpolate sz (tsize x).
Proof. apply (res_map_build _ (fun s n o i j => _)). Qed.
Lemma cat1_num_shape xs : res_map tsize (cat1_num xs) = cat1 (map tsize xs).
Proof. apply (res_map_build _ (fun s => _)). Qed.
Lemma add_inplace_num_shape o r : res_map tsize (add_inplace_num o r) = add_inplace (tsize o) (tsize r).
Proof. apply (res_map_build _ (fun s n c i j => _)). Qed.
