(* ===== verification/Interpolate.v ===== *)
(** * Bilinear resizing with aligned corners

    Properties of the kernel of [interpolate_num] used by the model's
    resizes ([24] in [PPM.forward] and [SRM.forward], [384] for the two
    outputs): the source positions stay inside the input and the weights
    in [[0, 1]]; the copy path taken for equal sizes computes what the
    general formula computes; the first and last output positions read
    the first and last input positions (the aligned corners); an output
    value lies between the least and the greatest input values; and a
    [1 x 1] input is spread to a constant map. *)

From Stdlib Require Import QArith Qminmax Qround Lqa.
From S2P Require Import Prelude Layers Tensor NumLayers.

Lemma clamp01 r : (0 <= Qmin (Qmax r 0) 1 <= 1)%Q.
Proof.
  split; [apply Q.min_glb; [apply Q.le_max_r|lra]|apply Q.le_min_r].
Qed.

Lemma src_index_lin_bounds isz osz d :
  1 <= isz ->
  let '(i0, i1, l) := src_index_lin isz osz d in
  i0 < isz /\ i1 < isz /\ (0 <= l <= 1)%Q.
Proof.
  intros Hi. unfold src_index_lin. split; [lia|]. split; [|apply clamp01].
  match goal with |- context [?a <? isz - 1] => destruct (Nat.ltb_spec a (isz - 1)) end; lia.
Qed.

Lemma src_index_bounds isz osz d :
  1 <= isz -> d < osz ->
  let '(i0, i1, l) := src_index isz osz d in
  i0 < isz /\ i1 < isz /\ (0 <= l <= 1)%Q.
Proof.
  intros Hi Hd. unfold src_index.
  destruct (Nat.eqb_spec osz isz) as [->|_]; [split; [lia|split; [lia|lra]]|].
  by apply src_index_lin_bounds.
Qed.

Lemma clamp01_zero r : (r == 0)%Q -> (Qmin (Qmax r 0) 1 == 0)%Q.
Proof.
  intros Hr. pose proof (clamp01 r). pose proof (Q.le_max_l r 0).
  assert (Qmax r 0 == 0)%Q as Hm.
  { destruct (Q.max_spec r 0) as [[_ Hx]|[_ Hx]]; rewrite Hx; lra. }
  pose proof (Q.le_min_l (Qmax r 0) 1). lra.
Qed.

Lemma qfloor_qnat_min a isz x :
  a < isz -> (x == qnat a)%Q -> Nat.min (Z.to_nat (Qfloor x)) (isz - 1) = a.
Proof. intros Ha Hx. rewrite (Qfloor_comp _ _ Hx). unfold qnat. rewrite Qfloor_Z, Nat2Z.id. lia. Qed.

(** When the general formula lands exactly on an input position [a],
    it reads [a] with weight [0]. *)
Lemma src_index_lin_exact isz osz d a :
  a < isz -> (((if 1 <? osz then qnat (isz - 1) / qnat (osz - 1) else 0) * qnat d) == qnat a)%Q ->
  (src_index_lin isz osz d).1.1 = a /\ ((src_index_lin isz osz d).2 == 0)%Q.
Proof.
  intros Ha Hreal. unfold src_index_lin. cbn [fst snd].
  rewrite (qfloor_qnat_min a isz _ Ha Hreal). split; [done|].
  apply clamp01_zero. rewrite Hreal. ring.
Qed.

(** The copy path for equal sizes computes what the general formula
    computes: position [d] with weight [0]. *)
Lemma src_index_lin_same isz d :
  d < isz -> (src_index_lin isz isz d).1.1 = d /\ ((src_index_lin isz isz d).2 == 0)%Q.
Proof.
  intros Hd. apply src_index_lin_exact; [done|].
  destruct (Nat.ltb_spec 1 isz) as [H1|H1].
  - assert (~ qnat (isz - 1) == 0)%Q.
    { pose proof (qnat_pos (isz - 1) ltac:(lia)). lra. }
    field. done.
  - assert (d = 0) as -> by lia. change (qnat 0) with 0%Q. ring.
Qed.

(** The first output position reads the first input position. *)
Lemma src_index_first isz osz :
  1 <= isz -> (src_index isz osz 0).1.1 = 0 /\ ((src_index isz osz 0).2 == 0)%Q.
Proof.
  intros Hi. unfold src_index. destruct (osz =? isz); [split; [done|reflexivity]|].
  apply src_index_lin_exact; [lia|]. unfold qnat. simpl. ring.
Qed.

(** The last output position reads the last input position. *)
Lemma src_index_last isz osz :
  1 <= isz -> 2 <= osz ->
  (src_index isz osz (osz - 1)).1.1 = isz - 1 /\ ((src_index isz osz (osz - 1)).2 == 0)%Q.
Proof.
  intros Hi Ho. unfold src_index.
  destruct (Nat.eqb_spec osz isz) as [->|_]; [split; [done|reflexivity]|].
  apply src_index_lin_exact; [lia|].
  rewrite (proj2 (Nat.ltb_lt 1 osz)) by lia.
  assert (~ qnat (osz - 1) == 0)%Q by (pose proof (qnat_pos (osz - 1) ltac:(lia)); lra).
  field. done.
Qed.

(** A one-position input is read at position [0] only. *)
Lemma src_index_one osz d :
  d < osz -> (src_index 1 osz d).1.1 = 0 /\ (src_index 1 osz d).1.2 = 0.
Proof.
  intros Hd. unfold src_index, src_index_lin.
  destruct (Nat.eqb_spec osz 1) as [->|_]; cbn [fst snd]; [lia|]. split; [lia|].
  rewrite Nat.min_r by lia. reflexivity.
Qed.

(** ** Bilinear combination *)

Lemma convex_bounds (a x y lo hi : Q) :
  (0 <= a <= 1 -> lo <= x <= hi -> lo <= y <= hi -> lo <= (1 - a) * x + a * y <= hi)%Q.
Proof.
  intros Ha Hx Hy.
  assert (0 <= (1 - a) * (x - lo))%Q by (apply Qmult_le_0_compat; lra).
  assert (0 <= a * (y - lo))%Q by (apply Qmult_le_0_compat; lra).
  assert (0 <= (1 - a) * (hi - x))%Q by (apply Qmult_le_0_compat; lra).
  assert (0 <= a * (hi - y))%Q by (apply Qmult_le_0_compat; lra).
  nra.
Qed.

(** An output value is a convex combination of four input values, so it
    lies between any bounds of the input. *)
Lemma bilinear_bounds v H W osz i j lo hi :
  1 <= H -> 1 <= W -> i < osz -> j < osz ->
  (forall a b, a < H -> b < W -> (lo <= v a b <= hi)%Q) ->
  (lo <= bilinear v H W osz i j <= hi)%Q.
Proof.
  intros HH HW Hi Hj Hv. unfold bilinear.
  pose proof (src_index_bounds H osz i HH Hi) as Hh.
  pose proof (src_index_bounds W osz j HW Hj) as Hw.
  destruct (src_index H osz i) as [[h0 h1] hl], (src_index W osz j) as [[w0 w1] wl].
  destruct Hh as (? & ? & ?), Hw as (? & ? & ?).
  apply convex_bounds; [done| |]; apply convex_bounds; auto.
Qed.

(** Where both source weights are [0] the output is the input value at
    the source position. *)
Lemma bilinear_at v H W osz i j a b :
  (src_index H osz i).1.1 = a -> ((src_index H osz i).2 == 0)%Q ->
  (src_index W osz j).1.1 = b -> ((src_index W osz j).2 == 0)%Q ->
  (bilinear v H W osz i j == v a b)%Q.
Proof.
  unfold bilinear.
  destruct (src_index H osz i) as [[h0 h1] hl], (src_index W osz j) as [[w0 w1] wl].
  cbn [fst snd]. intros -> Hh -> Hw. rewrite Hh, Hw. ring.
Qed.

(** A [1 x 1] input is read at [(0, 0)] everywhere. *)
Lemma bilinear_one v osz i j :
  i < osz -> j < osz -> (bilinear v 1 1 osz i j == v 0%nat 0%nat)%Q.
Proof.
  intros Hi Hj. unfold bilinear.
  pose proof (src_index_one osz i Hi) as Hh. pose proof (src_index_one osz j Hj) as Hw.
  destruct (src_index 1 osz i) as [[h0 h1] hl], (src_index 1 osz j) as [[w0 w1] wl].
  cbn [fst snd] in *. destruct Hh as [-> ->], Hw as [-> ->]. ring.
Qed.

(** ** The resize of a tensor *)

Lemma interpolate_inv sz x y :
  interpolate sz x = Ok y ->
  1 <= sH x /\ 1 <= sW x /\ 1 <= sz /\ y = Shape (sN x) (sC x) sz sz.
Proof.
  unfold interpolate, check.
  destruct (0 <? sH x) eqn:H1, (0 <? sW x) eqn:H2, (0 <? sz) eqn:H3; simpl; intros Hy; try done.
  apply Nat.ltb_lt in H1, H2, H3. injection Hy as <-. repeat split; (done || lia).
Qed.

Lemma interpolate_num_inv sz x y :
  interpolate_num sz x = Ok y ->
  1 <= sH (tsize x) /\ 1 <= sW (tsize x) /\ 1 <= sz /\
  tsize y = Shape (sN (tsize x)) (sC (tsize x)) sz sz /\
  forall n c i j, tval y n c i j = bilinear (tval x n c) (sH (tsize x)) (sW (tsize x)) sz i j.
Proof.
  unfold interpolate_num. destruct (interpolate sz (tsize x)) as [s|e] eqn:Hs; simpl; [|done].
  intros Hy. injection Hy as <-. apply interpolate_inv in Hs as (? & ? & ? & ->). simpl. auto.
Qed.

Lemma src_index_same isz d : src_index isz isz d = (d, d, 0%Q).
Proof. unfold src_index. by rewrite Nat.eqb_refl. Qed.

(** The reading of one axis: the input values at the two source
    positions, weighted. *)
Definition lerp1 (v : nat -> Q) (t : nat * nat * Q) : Q :=
  let '(a, b, l) := t in ((1 - l) * v a + l * v b)%Q.

(** ** Properties of the resize *)

(** Resizing a square map to its own size succeeds and returns the
    input unchanged (the copy path). *)
Lemma interpolate_num_same_size sz x :
  sH (tsize x) = sz -> sW (tsize x) = sz -> 1 <= sz ->
  exists y, interpolate_num sz x = Ok y /\ teq y x.
Proof.
  intros HH HW Hs. unfold interpolate_num.
  rewrite interpolate_ok by lia. eexists; split; [reflexivity|].
  destruct x as [[N C H W] v]; cbn in *; subst. split; [done|].
  intros n c i j _. apply bilinear_at; by rewrite src_index_same.
Qed.

(** With aligned corners the four corners of the resized map are
    the four corners of the input. *)
Lemma interpolate_num_corners sz x y n c :
  interpolate_num sz x = Ok y -> 2 <= sz ->
  let H := sH (tsize x) in let W := sW (tsize x) in
  (tval y n c 0 0 == tval x n c 0 0 /\
   tval y n c 0 (sz - 1) == tval x n c 0 (W - 1) /\
   tval y n c (sz - 1) 0 == tval x n c (H - 1) 0 /\
   tval y n c (sz - 1) (sz - 1) == tval x n c (H - 1) (W - 1))%Q.
Proof.
  intros Hy Hs. apply interpolate_num_inv in Hy as (HH & HW & _ & _ & Hv). cbv zeta.
  rewrite !Hv.
  pose proof (src_index_first _ sz HH) as [? ?]. pose proof (src_index_first _ sz HW) as [? ?].
  pose proof (src_index_last _ sz HH Hs) as [? ?]. pose proof (src_index_last _ sz HW Hs) as [? ?].
  repeat split; by apply bilinear_at.
Qed.

(** Every value of the resized map lies between bounds of the
    input's values (bilinear resizing creates no new extremes). *)
Lemma interpolate_num_bounds sz x y lo hi :
  interpolate_num sz x = Ok y ->
  (forall n c i j, in_bounds (tsize x) n c i j -> lo <= tval x n c i j <= hi)%Q ->
  (forall n c i j, in_bounds (tsize y) n c i j -> lo <= tval y n c i j <= hi)%Q.
Proof.
  intros Hy Hx n c i j Hb. apply interpolate_num_inv in Hy as (HH & HW & _ & Hs & Hv).
  rewrite Hs in Hb. destruct Hb as (Hn & Hc & Hi & Hj). cbn in *. rewrite Hv.
  apply bilinear_bounds; auto. intros a b Ha Hb. apply Hx. repeat split; done.
Qed.

(** A [1 x 1] map (the output of [PPM.block1]) is resized to a
    constant map. *)
Lemma interpolate_num_one sz x y :
  interpolate_num sz x = Ok y -> sH (tsize x) = 1 -> sW (tsize x) = 1 ->
  (forall n c i j, in_bounds (tsize y) n c i j -> tval y n c i j == tval x n c 0%nat 0%nat)%Q.
Proof.
  intros Hy H1 W1 n c i j Hb. apply interpolate_num_inv in Hy as (_ & _ & _ & Hs & Hv).
  rewrite Hs in Hb. destruct Hb as (_ & _ & Hi & Hj). cbn in *. rewrite Hv, H1, W1.
  by apply bilinear_one.
Qed.

(** The framework's copy path for equal sizes reads what the
    general aligned-corners formula reads, at every position. *)
Lemma src_index_copy_path v isz d :
  d < isz -> (lerp1 v (src_index isz isz d) == lerp1 v (src_index_lin isz isz d))%Q.
Proof.
  intros Hd. rewrite src_index_same. pose proof (src_index_lin_same isz d Hd) as [Ha Hl].
  destruct (src_index_lin isz isz d) as [[a b] l]. cbn in *. subst a. rewrite Hl. ring.
Qed.
