(* ===== verification/NumModules.v ===== *)
(** * The interface of a module with values

    [NumModule] is what a module with values promises its clients: a
    numeric forward, the law that its result has the shape its shape
    forward computes ([num_forward_shape]), and the law that it reads its
    input only inside the input's shape ([num_forward_teq]: equivalent
    inputs give equivalent results).  This file proves the second law for
    every numeric layer, from the inversion of the layers' shape rules
    (each read of the input lies inside it: padding, pooling windows,
    source positions of the resize, broadcast indices and the blocks of a
    concatenation), and gives the instances for the layers and for
    [nn.Sequential]. *)

From Stdlib Require Import QArith Qminmax Lqa.
From stdpp Require Import pretty.
From S2P Require Import Prelude Layers Bottleneck PPM Backbone SRMNet StateDict Tensor NumLayers Interpolate.

(** ** What a successful shape rule tells *)

Lemma conv2d_forward_inv cv x s :
  conv2d_forward cv x = Ok s -> sC x = conv_in cv /\ sN s = sN x.
Proof.
  unfold conv2d_forward, check. destruct (sC x =? conv_in cv) eqn:E; [|done].
  simpl. intros Hs. res_run Hs. injection Hs as <-. unbool. done.
Qed.

Lemma batchnorm2d_forward_inv b x s : batchnorm2d_forward b x = Ok s -> s = x.
Proof. unfold batchnorm2d_forward, check. destruct (_ =? _); simpl; congruence. Qed.

Lemma maxpool2d_forward_inv m x s :
  maxpool2d_forward m x = Ok s -> sN s = sN x /\ sC s = sC x.
Proof.
  unfold maxpool2d_forward, check. destruct (_ <=? _); [|done].
  simpl. intros Hs. res_run Hs. by injection Hs as <-.
Qed.

(** A window of an unpadded pooling reads inside the input. *)
Lemma out_size_reads k s n h i ki :
  out_size k s 0 n = Ok h -> i < h -> ki < k -> i * s + ki < n.
Proof.
  unfold out_size, check.
  destruct (negb (s =? 0)) eqn:E1, (k <=? n + 2 * 0) eqn:E2; simpl; try done.
  intros Hh. injection Hh as <-. intros Hi Hk. unbool.
  pose proof (Nat.Div0.mul_div_le (n + 0 - k) s).
  set (q := (n + 0 - k) / s) in *. assert (i * s <= q * s) by (apply Nat.mul_le_mono_r; lia).
  lia.
Qed.

Lemma avgpool2d_forward_inv a x s :
  avgpool2d_forward a x = Ok s ->
  exists h w, out_size (ap_k a) (ap_s a) 0 (sH x) = Ok h /\
    out_size (ap_k a) (ap_s a) 0 (sW x) = Ok w /\ s = Shape (sN x) (sC x) h w.
Proof.
  unfold avgpool2d_forward. intros Hs. res_run Hs. injection Hs as <-. eauto.
Qed.

(** A broadcast index lies inside the broadcast dimension. *)
Lemma bidx_lt a b k : bcast a b = true -> k < a -> bidx b k < b.
Proof.
  unfold bcast, bidx. intros Hb Hk. apply orb_true_iff in Hb.
  destruct (Nat.eqb_spec b 1); [lia|]. destruct Hb; unbool; lia.
Qed.

Lemma add_inplace_inv o r s :
  add_inplace o r = Ok s ->
  s = o /\ bcast (sN o) (sN r) = true /\ bcast (sC o) (sC r) = true /\
  bcast (sH o) (sH r) = true /\ bcast (sW o) (sW r) = true.
Proof.
  unfold add_inplace, check. destruct (_ && _) eqn:E; [|done].
  simpl. intros Hs. injection Hs as <-. unbool. auto.
Qed.

Lemma cat1_inv xs s :
  cat1 xs = Ok s ->
  exists x rest, xs = x :: rest /\ Forall (fun y => sN y = sN x /\ sH y = sH x /\ sW y = sW x) xs /\
    sN s = sN x /\ sH s = sH x /\ sW s = sW x.
Proof.
  destruct xs as [|x rest]; [done|]. unfold cat1, check.
  destruct (forallb _ _) eqn:E; [|done]. simpl. intros Hs. injection Hs as <-.
  exists x, rest. split; [done|]. split; [|done]. constructor; [done|].
  apply Forall_forall. intros y Hy. apply same_but_channels_iff.
  apply forallb_forall with (x := y) in E; [done|]. by apply list_elem_of_In.
Qed.

(** ** Parameter stores that agree on a module's names *)

(** The names of a module's [state_dict]. *)
Definition names {M} `{HasParams M} (m : M) : list string := map fst (StateDict.params m).

(** Two environments agree on the names [ns] when they have the same
    [rsqrt] and give the same value to every entry of every name of [ns]. *)
Definition env_agree (ns : list string) (E E' : env) : Prop :=
  (forall q, rsqrt E q = rsqrt E' q) /\
  forall k, k ∈ ns -> forall idx, params E k idx = params E' k idx.

Lemma env_agree_refl ns E : env_agree ns E E.
Proof. done. Qed.

Lemma env_agree_mono ns ns' E E' : ns ⊆ ns' -> env_agree ns' E E' -> env_agree ns E E'.
Proof. intros Hs [Hr Hp]. split; [done|]. intros k Hk. apply Hp, Hs, Hk. Qed.

(** A child registered as [p] reads the parent's entries [p.k]. *)
Lemma env_agree_sub_list p l E E' :
  env_agree (map fst (prefixed p l)) E E' -> env_agree (map fst l) (sub E p) (sub E' p).
Proof.
  intros [Hr Hp]. split; [done|]. intros k Hk idx. simpl. apply Hp.
  apply list_elem_of_In in Hk. apply list_elem_of_In, in_map_iff.
  apply in_map_iff in Hk as ([k' sz] & <- & Hin).
  exists (dot p k', sz). split; [done|]. apply in_map_iff. by exists (k', sz).
Qed.

Lemma env_agree_sub {M} `{HasParams M} p (m : M) E E' :
  env_agree (map fst (prefixed p (StateDict.params m))) E E' -> env_agree (names m) (sub E p) (sub E' p).
Proof. apply env_agree_sub_list. Qed.

Lemma names_prefixed_app p l1 l2 :
  map fst (prefixed p (l1 ++ l2)) = map fst (prefixed p l1) ++ map fst (prefixed p l2).
Proof. unfold prefixed. by rewrite !map_app. Qed.

(** The names of the composite modules, one child after the other. *)
Lemma params_pair {A B} `{HasParams A, HasParams B} (ab : A * B) :
  StateDict.params ab = prefixed "0" (StateDict.params ab.1) ++ prefixed "1" (StateDict.params ab.2).
Proof. reflexivity. Qed.
Lemma params_bottleneck (b : Bottleneck.t) :
  StateDict.params b =
  prefixed "conv1" (StateDict.params (Bottleneck.conv1 b)) ++ prefixed "bn1" (StateDict.params (Bottleneck.bn1 b)) ++
  prefixed "conv2" (StateDict.params (Bottleneck.conv2 b)) ++ prefixed "bn2" (StateDict.params (Bottleneck.bn2 b)) ++
  prefixed "conv3" (StateDict.params (Bottleneck.conv3 b)) ++ prefixed "bn3" (StateDict.params (Bottleneck.bn3 b)) ++
  match Bottleneck.downsample b with
  | Some d => prefixed "downsample" (StateDict.params d)
  | None => []
  end.
Proof. reflexivity. Qed.
Lemma params_ppm (p : PPM.t) :
  StateDict.params p =
  prefixed "block1" (StateDict.params (PPM.block1 p)) ++ prefixed "block2" (StateDict.params (PPM.block2 p)) ++
  prefixed "block3" (StateDict.params (PPM.block3 p)) ++ prefixed "block4" (StateDict.params (PPM.block4 p)).
Proof. reflexivity. Qed.
Lemma params_stage1 (s : Stage1.t) :
  StateDict.params s =
  prefixed "conv1" (StateDict.params (Stage1.conv1 s)) ++ prefixed "bn1" (StateDict.params (Stage1.bn1 s)) ++
  prefixed "layer1" (StateDict.params (Stage1.layer1 s)) ++ prefixed "layer2" (StateDict.params (Stage1.layer2 s)) ++
  prefixed "layer3" (StateDict.params (Stage1.layer3 s)) ++ prefixed "layer4" (StateDict.params (Stage1.layer4 s)) ++
  prefixed "conv6" (StateDict.params (Stage1.conv6 s)) ++ prefixed "conv7" (StateDict.params (Stage1.conv7 s)).
Proof. reflexivity. Qed.
Lemma params_stage2 (s : Stage2.t) :
  StateDict.params s =
  prefixed "conv1" (StateDict.params (Stage2.conv1 s)) ++ prefixed "bn1" (StateDict.params (Stage2.bn1 s)) ++
  prefixed "layer1" (StateDict.params (Stage2.layer1 s)) ++ prefixed "layer2" (StateDict.params (Stage2.layer2 s)) ++
  prefixed "layer3" (StateDict.params (Stage2.layer3 s)) ++ prefixed "ppm" (StateDict.params (Stage2.ppm s)).
Proof. reflexivity. Qed.
Lemma params_srm (m : SRM.t) :
  StateDict.params m =
  prefixed "stage1" (StateDict.params (SRM.stage1 m)) ++ prefixed "stage2" (StateDict.params (SRM.stage2 m)) ++
  prefixed "conv1" (StateDict.params (SRM.conv1 m)) ++ prefixed "conv2" (StateDict.params (SRM.conv2 m)) ++
  prefixed "conv6" (StateDict.params (SRM.conv6 m)) ++ prefixed "conv7" (StateDict.params (SRM.conv7 m)).
Proof. reflexivity. Qed.

Lemma params_relu (r : ReLU) : StateDict.params r = [].
Proof. reflexivity. Qed.
Lemma params_maxpool2d (m : MaxPool2d) : StateDict.params m = [].
Proof. reflexivity. Qed.
Lemma params_avgpool2d (a : AvgPool2d) : StateDict.params a = [].
Proof. reflexivity. Qed.

Create Rewrite HintDb params_rw.
#[export] Hint Rewrite params_relu params_maxpool2d params_avgpool2d @params_pair params_bottleneck params_ppm params_stage1 params_stage2
  params_srm : params_rw.

(** [names_solver]: a list of names is among a concatenation of lists. *)
Ltac names_solver := let k := fresh "k" in let Hk := fresh "Hk" in
  intros k Hk; cbn [prefixed map] in Hk |- *; rewrite ?elem_of_app;
  try (apply elem_of_nil in Hk; contradiction); tauto.

(** [agree_tac]: the environment of a child agrees when its parent's does. *)
Ltac agree_tac :=
  match goal with
  | H : env_agree _ ?E ?E' |- env_agree (names _) (sub ?E _) (sub ?E' _) =>
      apply env_agree_sub; eapply env_agree_mono; [|exact H];
      unfold names; autorewrite with params_rw; cbn [fst snd]; rewrite ?map_app; names_solver
  end.

(** ** Each numeric layer reads its input inside its shape *)

Lemma padded_teq x y p n c a b :
  teq x y -> n < sN (tsize x) -> c < sC (tsize x) ->
  (padded x p n c a b == padded y p n c a b)%Q.
Proof.
  intros [Hs Hv] Hn Hc. unfold padded. rewrite <- Hs.
  destruct (_ && _) eqn:E; [|reflexivity]. unbool. apply Hv. repeat split; lia.
Qed.

Lemma conv2d_num_frame cv E E' x y :
  env_agree (names cv) E E' -> teq x y -> res_rel teq (conv2d_num cv E x) (conv2d_num cv E' y).
Proof.
  intros [_ Hp] Hxy. unfold conv2d_num. rewrite <- (proj1 Hxy).
  apply (res_rel_build _ (fun s n o i j => _) (fun s n o i j => _)).
  intros s Hc n o i j (Hn & _). apply conv2d_forward_inv in Hc as [HC HN].
  apply Qplus_comp.
  { destruct (conv_bias cv) eqn:Hb; [|reflexivity]. rewrite Hp; [reflexivity|].
    unfold names, StateDict.params, Conv2d_params. rewrite Hb. set_solver. }
  apply qsum_ext; intros ci Hci; apply qsum_ext; intros ki _; apply qsum_ext; intros kj _.
  rewrite (padded_teq x y), Hp by (unfold names, StateDict.params, Conv2d_params; set_solver || lia || done).
  reflexivity.
Qed.

Lemma batchnorm2d_num_frame b E E' x y :
  env_agree (names b) E E' -> teq x y -> res_rel teq (batchnorm2d_num b E x) (batchnorm2d_num b E' y).
Proof.
  intros [Hr Hp] [Hs Hv]. unfold batchnorm2d_num. rewrite <- Hs.
  apply (res_rel_build _ (fun s n c i j => _) (fun s n c i j => _)).
  intros s Hb n c i j Hin. apply batchnorm2d_forward_inv in Hb as ->.
  rewrite Hv, Hr, !Hp by (done || (unfold names, StateDict.params, BatchNorm2d_params; set_solver)).
  reflexivity.
Qed.

Lemma relu_num_teq x y : teq x y -> res_rel teq (relu_num x) (relu_num y).
Proof.
  intros [Hs Hv]. split; [done|]. intros n c i j Hin. simpl in *. by rewrite Hv.
Qed.

Lemma Forall2_flat_map {A B} (R : relation B) (f g : A -> list B) l :
  (forall a, Forall2 R (f a) (g a)) -> Forall2 R (flat_map f l) (flat_map g l).
Proof. intros H. induction l; simpl; [constructor|]. by apply Forall2_app. Qed.

Lemma qmax_list_Forall2 l1 l2 : Forall2 Qeq l1 l2 -> (qmax_list l1 == qmax_list l2)%Q.
Proof.
  intros [|v1 v2 vs1 vs2 Hv Hvs]; simpl; [reflexivity|].
  revert v1 v2 Hv. induction Hvs as [|a b w1 w2 Hab _ IH]; intros v1 v2 Hv; simpl; [done|].
  apply IH. by rewrite Hv, Hab.
Qed.

Lemma window_teq x y k s p n c i j :
  teq x y -> n < sN (tsize x) -> c < sC (tsize x) ->
  Forall2 Qeq (window x k s p n c i j) (window y k s p n c i j).
Proof.
  intros [Hs Hv] Hn Hc. unfold window. rewrite <- Hs.
  apply Forall2_flat_map. intros ki. apply Forall2_flat_map. intros kj.
  destruct (_ && _) eqn:E; [|constructor]. unbool.
  constructor; [|constructor]. apply Hv. repeat split; lia.
Qed.

Lemma maxpool2d_num_teq m x y : teq x y -> res_rel teq (maxpool2d_num m x) (maxpool2d_num m y).
Proof.
  intros Hxy. unfold maxpool2d_num. rewrite <- (proj1 Hxy).
  apply (res_rel_build _ (fun s n c i j => _) (fun s n c i j => _)).
  intros s Hm n c i j (Hn & Hc & _). apply maxpool2d_forward_inv in Hm as [HN HC].
  apply qmax_list_Forall2, window_teq; [done|lia..].
Qed.

Lemma avgpool2d_num_teq a x y : teq x y -> res_rel teq (avgpool2d_num a x) (avgpool2d_num a y).
Proof.
  intros [Hs Hv]. unfold avgpool2d_num. rewrite <- Hs.
  apply (res_rel_build _ (fun s n c i j => _) (fun s n c i j => _)).
  intros s Ha n c i j Hin. apply avgpool2d_forward_inv in Ha as (h & w & Hh & Hw & ->).
  destruct Hin as (Hn & Hc & Hi & Hj). cbn in *.
  apply Qdiv_comp; [|reflexivity].
  apply qsum_ext; intros ki Hki; apply qsum_ext; intros kj Hkj.
  apply Hv. repeat split; [done|done|eapply out_size_reads; eauto..].
Qed.

(** The resize reads its input at source positions inside it. *)
Lemma bilinear_ext v w H W osz i j :
  1 <= H -> 1 <= W -> i < osz -> j < osz ->
  (forall a b, a < H -> b < W -> (v a b == w a b)%Q) ->
  (bilinear v H W osz i j == bilinear w H W osz i j)%Q.
Proof.
  intros HH HW Hi Hj Hvw. unfold bilinear.
  pose proof (src_index_bounds H osz i HH Hi) as Hh.
  pose proof (src_index_bounds W osz j HW Hj) as Hw.
  destruct (src_index H osz i) as [[h0 h1] hl], (src_index W osz j) as [[w0 w1] wl].
  destruct Hh as (? & ? & _), Hw as (? & ? & _). rewrite !Hvw by done. reflexivity.
Qed.

Lemma interpolate_num_teq sz x y : teq x y -> res_rel teq (interpolate_num sz x) (interpolate_num sz y).
Proof.
  intros [Hs Hv]. unfold interpolate_num. rewrite <- Hs.
  apply (res_rel_build _ (fun s n c i j => _) (fun s n c i j => _)).
  intros s Hi n c i j Hin. apply interpolate_inv in Hi as (HH & HW & _ & ->).
  destruct Hin as (Hn & Hc & Hi & Hj). cbn in *.
  apply bilinear_ext; try done. intros a b Ha Hb. apply Hv. by repeat split.
Qed.

(** A concatenation reads each block inside it, at the batch and spatial
    indices all blocks share. *)
Lemma cat_val_teq xs ys N H W n c i j :
  Forall2 teq xs ys ->
  Forall (fun x => sN (tsize x) = N /\ sH (tsize x) = H /\ sW (tsize x) = W) xs ->
  n < N -> i < H -> j < W -> (cat_val xs n c i j == cat_val ys n c i j)%Q.
Proof.
  intros Hxy. revert c. induction Hxy as [|x y xs ys [Hs Hv] _ IH]; intros c Hall Hn Hi Hj;
    simpl; [reflexivity|].
  apply Forall_cons in Hall as [(HN & HH & HW) Hall]. rewrite <- Hs.
  destruct (Nat.ltb_spec c (sC (tsize x))); [apply Hv; repeat split; lia|by apply IH].
Qed.

Lemma cat1_num_teq xs ys : Forall2 teq xs ys -> res_rel teq (cat1_num xs) (cat1_num ys).
Proof.
  intros Hxy. unfold cat1_num.
  assert (map tsize xs = map tsize ys) as <-.
  { induction Hxy as [|x y xs ys [Hs _] _ IH]; simpl; congruence. }
  apply (res_rel_build _ (fun s => _) (fun s => _)).
  intros s Hc n c i j (Hn & _ & Hi & Hj). apply cat1_inv in Hc as (x & rest & Hl & Hall & HN & HH & HW).
  apply (cat_val_teq _ _ (sN x) (sH x) (sW x)); [done| |lia..].
  by apply List.Forall_map in Hall.
Qed.

(** The in-place addition reads the broadcast operand inside it. *)
Lemma add_inplace_num_teq o o' r r' :
  teq o o' -> teq r r' -> res_rel teq (add_inplace_num o r) (add_inplace_num o' r').
Proof.
  intros [Hso Hvo] [Hsr Hvr]. unfold add_inplace_num. rewrite <- Hso, <- Hsr.
  apply (res_rel_build _ (fun s n c i j => _) (fun s n c i j => _)).
  intros s Ha n c i j Hin. apply add_inplace_inv in Ha as (-> & BN & BC & BH & BW).
  destruct Hin as (Hn & Hc & Hi & Hj).
  apply Qplus_comp; [by apply Hvo|]. apply Hvr.
  repeat split; [eapply bidx_lt; [exact BN|done]|eapply bidx_lt; [exact BC|done]
                |eapply bidx_lt; [exact BH|done]|eapply bidx_lt; [exact BW|done]].
Qed.

(** ** The interface *)

Class NumModule (M : Type) `{NNModule M, HasParams M} := {
  num_forward : M -> env -> tensor -> res tensor;
  num_forward_shape : forall m E x, res_map tsize (num_forward m E x) = nn_forward m (tsize x);
  num_forward_frame : forall m E E' x y, env_agree (names m) E E' -> teq x y ->
    res_rel teq (num_forward m E x) (num_forward m E' y) }.

(** In one environment, equivalent inputs give equivalent results. *)
#[export] Instance num_forward_teq {M} `{NumModule M} (m : M) E :
  Proper (teq ==> res_rel teq) (num_forward m E).
Proof. intros x y Hxy. by apply num_forward_frame. Qed.

Lemma relu_num_frame (r : ReLU) (E E' : env) x y :
  env_agree (names r) E E' -> teq x y -> res_rel teq (relu_num x) (relu_num y).
Proof. intros _. apply relu_num_teq. Qed.

Lemma maxpool2d_num_frame m (E E' : env) x y :
  env_agree (names m) E E' -> teq x y -> res_rel teq (maxpool2d_num m x) (maxpool2d_num m y).
Proof. intros _. apply maxpool2d_num_teq. Qed.

Lemma avgpool2d_num_frame a (E E' : env) x y :
  env_agree (names a) E E' -> teq x y -> res_rel teq (avgpool2d_num a x) (avgpool2d_num a y).
Proof. intros _. apply avgpool2d_num_teq. Qed.

#[export] Instance Conv2d_num : NumModule Conv2d :=
  {| num_forward := conv2d_num; num_forward_shape := conv2d_num_shape;
     num_forward_frame := conv2d_num_frame |}.
#[export] Instance BatchNorm2d_num : NumModule BatchNorm2d :=
  {| num_forward := batchnorm2d_num; num_forward_shape := batchnorm2d_num_shape;
     num_forward_frame := batchnorm2d_num_frame |}.
#[export] Instance ReLU_num : NumModule ReLU :=
  {| num_forward := fun _ _ x => relu_num x; num_forward_shape := fun _ _ _ => eq_refl;
     num_forward_frame := relu_num_frame |}.
#[export] Instance MaxPool2d_num : NumModule MaxPool2d :=
  {| num_forward := fun m _ x => maxpool2d_num m x;
     num_forward_shape := fun m _ x => maxpool2d_num_shape m x;
     num_forward_frame := maxpool2d_num_frame |}.
#[export] Instance AvgPool2d_num : NumModule AvgPool2d :=
  {| num_forward := fun a _ x => avgpool2d_num a x;
     num_forward_shape := fun a _ x => avgpool2d_num_shape a x;
     num_forward_frame := avgpool2d_num_frame |}.

(** [rel_steps]: relate two runs of a chain of numeric calls on
    equivalent inputs (in the same environment, or in two that agree on
    the module's names), call by call. *)
Ltac rel_steps :=
  repeat match goal with
  | |- res_rel _ (res_bind _ _) (res_bind _ _) =>
      apply (res_bind_rel teq); [|intros ? ? ?; cbv beta]
  | |- res_rel teq (num_forward _ ?E _) (num_forward _ ?E _) => apply num_forward_teq; assumption
  | |- res_rel teq (num_forward _ _ _) (num_forward _ _ _) =>
      apply num_forward_frame; [agree_tac|assumption]
  | |- res_rel teq (interpolate_num _ _) (interpolate_num _ _) => apply interpolate_num_teq; assumption
  | |- res_rel teq (add_inplace_num _ _) (add_inplace_num _ _) => apply add_inplace_num_teq; assumption
  | |- res_rel teq (cat1_num _) (cat1_num _) =>
      apply cat1_num_teq; repeat (apply List.Forall2_cons; [assumption|]); apply List.Forall2_nil
  | |- res_rel teq (Ok _) (Ok _) => cbn [res_rel]; assumption
  end.

(** [nn.Sequential(a, b)]: its children read the parameters under [0]
    and [1]. *)
Definition pair_num_forward {A B} `{NumModule A, NumModule B} (ab : A * B) (E : env)
    (x : tensor) : res tensor :=
  let* y := num_forward ab.1 (sub E "0") x in num_forward ab.2 (sub E "1") y.

Lemma pair_num_shape {A B} `{NumModule A, NumModule B} (ab : A * B) E x :
  res_map tsize (pair_num_forward ab E x) = nn_forward ab (tsize x).
Proof.
  destruct ab as [a b]. unfold pair_num_forward. cbn [fst snd].
  rewrite res_map_bind, nn_forward_pair, <- (num_forward_shape a (sub E "0") x).
  destruct (num_forward a (sub E "0") x); simpl; [apply num_forward_shape|done].
Qed.

Lemma pair_num_frame {A B} `{NumModule A, NumModule B} (ab : A * B) E E' x y :
  env_agree (names ab) E E' -> teq x y -> res_rel teq (pair_num_forward ab E x) (pair_num_forward ab E' y).
Proof. destruct ab as [a b]. intros Hag Hxy. unfold pair_num_forward. cbn [fst snd]. rel_steps. Qed.

#[export] Instance pair_num {A B} `{NumModule A, NumModule B} : NumModule (A * B) :=
  {| num_forward := pair_num_forward; num_forward_shape := pair_num_shape;
     num_forward_frame := pair_num_frame |}.

(** [nn.Sequential] over a list: child [i] reads the parameters under [i]. *)
Fixpoint seq_num {M} `{NumModule M} (i : nat) (l : list M) (E : env) (x : tensor) : res tensor :=
  match l with
  | [] => Ok x
  | m :: l' => let* y := num_forward m (sub E (pretty i)) x in seq_num (S i) l' E y
  end.

Lemma seq_num_shape {M} `{NumModule M} i (l : list M) E x :
  res_map tsize (seq_num i l E x) = seq_forward l (tsize x).
Proof.
  revert i x. induction l as [|m l IH]; intros i x; simpl; [done|].
  rewrite res_map_bind, <- (num_forward_shape m (sub E (pretty i)) x).
  destruct (num_forward m _ x); simpl; [apply IH|done].
Qed.

(** The names of the children from index [i] on. *)
Definition seq_names {M} `{HasParams M} (i : nat) (l : list M) : list string :=
  map fst (concat (imap (fun j m => prefixed (pretty (i + j)) (StateDict.params m)) l)).

Lemma seq_names_cons {M} `{HasParams M} i (m : M) l :
  seq_names i (m :: l) = map fst (prefixed (pretty i) (StateDict.params m)) ++ seq_names (S i) l.
Proof.
  unfold seq_names. simpl. rewrite map_app, Nat.add_0_r. do 3 f_equal.
  apply imap_ext. intros j n _. unfold compose. f_equal. f_equal. lia.
Qed.

Lemma seq_num_frame {M} `{NumModule M} i (l : list M) E E' x y :
  env_agree (seq_names i l) E E' -> teq x y -> res_rel teq (seq_num i l E x) (seq_num i l E' y).
Proof.
  revert i x y. induction l as [|m l IH]; intros i x y Hag Hxy; simpl; [done|].
  rewrite seq_names_cons in Hag.
  apply (res_bind_rel teq); [|intros a b Hab; apply IH; [|done]].
  - apply num_forward_frame; [|done]. apply env_agree_sub.
    eapply env_agree_mono; [|exact Hag]. set_solver.
  - eapply env_agree_mono; [|exact Hag]. set_solver.
Qed.

#[export] Instance list_num {M} `{NumModule M} : NumModule (list M) :=
  {| num_forward := seq_num 0; num_forward_shape := seq_num_shape 0;
     num_forward_frame := seq_num_frame 0 |}.
