(* ===== verification/NumModel.v ===== *)
(** * The modules of the network on tensor values

    The forward methods of [Bottleneck], [PPM], [Stage1], [Stage2] and
    [SRM] on tensors: the same sequence of calls as their shape forwards
    (same source lines), each layer now the numeric layer of [NumLayers]
    running in the environment of its attribute ([sub E "conv1"] for
    [self.conv1], [sub E "layer1"] and then the block's index for a group),
    so that parameter names are those of the module's [state_dict].
    Every module is an instance of [NumModule]: its numeric forward
    raises exactly when its shape forward raises, and otherwise returns a
    tensor of the shape the shape forward computes (a functional
    refinement of the shape model), and reads no parameter outside its
    [state_dict] names; both laws hold by construction.  The value
    theorems: a block's output is nonnegative; the pyramid pooling module
    passes its input through unchanged as the first [1024] channels and
    its global-context channels are the [1 x 1] convolution of the
    channel means; the auxiliary output of [SRM] has the corners and the
    range of [Stage1]'s map and depends on nothing else. *)

From Stdlib Require Import QArith Qminmax Lqa.
From S2P Require Import Prelude Layers Bottleneck PPM Backbone SRMNet StateDict Tensor NumLayers Interpolate NumModules.

(** One step of a refinement proof: the shape of each call is given by
    the numeric layer's law. *)
Ltac num_refine :=
  repeat match goal with
  | |- res_map _ (res_bind _ _) = res_bind _ _ =>
      apply (res_map_bind_shape tsize); [|intros ?; cbv beta]
  | |- res_map tsize _ = _ =>
      first [ apply num_forward_shape | apply interpolate_num_shape
            | apply cat1_num_shape | apply add_inplace_num_shape ]
  | |- res_map _ (Ok _) = Ok _ => reflexivity
  end.

Module BottleneckNum.

Definition forward (b : Bottleneck.t) (E : env) (x : tensor) : res tensor :=
  let residual := x in
  let* out := num_forward (Bottleneck.conv1 b) (sub E "conv1") x in
  let* out := num_forward (Bottleneck.bn1 b) (sub E "bn1") out in
  let* out := num_forward (Bottleneck.relu b) (sub E "relu") out in
  let* out := num_forward (Bottleneck.conv2 b) (sub E "conv2") out in
  let* out := num_forward (Bottleneck.bn2 b) (sub E "bn2") out in
  let* out := num_forward (Bottleneck.relu b) (sub E "relu") out in
  let* out := num_forward (Bottleneck.conv3 b) (sub E "conv3") out in
  let* out := num_forward (Bottleneck.bn3 b) (sub E "bn3") out in
  let* residual :=
    match Bottleneck.downsample b with
    | Some d => num_forward d (sub E "downsample") x
    | None => Ok residual
    end in
  let* out := add_inplace_num out residual in
  num_forward (Bottleneck.relu b) (sub E "relu") out.

Lemma bottleneck_num_shape b E x : res_map tsize (forward b E x) = Bottleneck.forward b (tsize x).
Proof.
  unfold forward, Bottleneck.forward. num_refine.
  destruct (Bottleneck.downsample b); num_refine.
Qed.

Lemma bottleneck_num_frame b E E' x y :
  env_agree (names b) E E' -> teq x y -> res_rel teq (forward b E x) (forward b E' y).
Proof.
  intros Hag Hxy. unfold forward. rel_steps.
  destruct (Bottleneck.downsample b) eqn:Hd; rel_steps.
  apply num_forward_frame; [|done]. apply env_agree_sub. eapply env_agree_mono; [|exact Hag].
  unfold names. rewrite params_bottleneck, Hd, ?map_app. names_solver.
Qed.

End BottleneckNum.

#[export] Instance Bottleneck_num : NumModule Bottleneck.t :=
  {| num_forward := BottleneckNum.forward; num_forward_shape := BottleneckNum.bottleneck_num_shape;
     num_forward_frame := BottleneckNum.bottleneck_num_frame |}.

Module PPMNum.

Definition forward (p : PPM.t) (E : env) (x : tensor) : res tensor :=
  let* x1 := num_forward (PPM.block1 p) (sub E "block1") x in
  let* x1 := interpolate_num 24 x1 in
  let* x2 := num_forward (PPM.block2 p) (sub E "block2") x in
  let* x2 := interpolate_num 24 x2 in
  let* x3 := num_forward (PPM.block3 p) (sub E "block3") x in
  let* x3 := interpolate_num 24 x3 in
  let* x4 := num_forward (PPM.block4 p) (sub E "block4") x in
  let* x4 := interpolate_num 24 x4 in
  cat1_num [x; x1; x2; x3; x4].

Lemma ppm_num_shape p E x : res_map tsize (forward p E x) = PPM.forward p (tsize x).
Proof. unfold forward, PPM.forward. num_refine. Qed.

Lemma ppm_num_frame p E E' x y :
  env_agree (names p) E E' -> teq x y -> res_rel teq (forward p E x) (forward p E' y).
Proof. intros Hag Hxy. unfold forward. rel_steps. Qed.

End PPMNum.

#[export] Instance PPM_num : NumModule PPM.t :=
  {| num_forward := PPMNum.forward; num_forward_shape := PPMNum.ppm_num_shape;
     num_forward_frame := PPMNum.ppm_num_frame |}.

Module Stage1Num.

Definition forward (s : Stage1.t) (E : env) (x : tensor) : res tensor :=
  let* x := num_forward (Stage1.conv1 s) (sub E "conv1") x in
  let* x := num_forward (Stage1.bn1 s) (sub E "bn1") x in
  let* x := num_forward (Stage1.relu s) (sub E "relu") x in
  let* x := num_forward (Stage1.maxpool s) (sub E "maxpool") x in
  let* x := num_forward (Stage1.layer1 s) (sub E "layer1") x in
  let* x := num_forward (Stage1.layer2 s) (sub E "layer2") x in
  let* x := num_forward (Stage1.layer3 s) (sub E "layer3") x in
  let* x := num_forward (Stage1.layer4 s) (sub E "layer4") x in
  let* x := num_forward (Stage1.conv6 s) (sub E "conv6") x in
  let* x := num_forward (Stage1.conv7 s) (sub E "conv7") x in
  Ok x.

Lemma stage1_num_shape s E x : res_map tsize (forward s E x) = Stage1.forward s (tsize x).
Proof. unfold forward, Stage1.forward. num_refine. Qed.

Lemma stage1_num_frame s E E' x y :
  env_agree (names s) E E' -> teq x y -> res_rel teq (forward s E x) (forward s E' y).
Proof. intros Hag Hxy. unfold forward. rel_steps. Qed.

End Stage1Num.

#[export] Instance Stage1_num : NumModule Stage1.t :=
  {| num_forward := Stage1Num.forward; num_forward_shape := Stage1Num.stage1_num_shape;
     num_forward_frame := Stage1Num.stage1_num_frame |}.

Module Stage2Num.

Definition forward (s : Stage2.t) (E : env) (x : tensor) : res tensor :=
  let* x := num_forward (Stage2.conv1 s) (sub E "conv1") x in
  let* x := num_forward (Stage2.bn1 s) (sub E "bn1") x in
  let* x := num_forward (Stage2.relu s) (sub E "relu") x in
  let* x := num_forward (Stage2.maxpool s) (sub E "maxpool") x in
  let* x := num_forward (Stage2.layer1 s) (sub E "layer1") x in
  let* x := num_forward (Stage2.layer2 s) (sub E "layer2") x in
  let* x := num_forward (Stage2.layer3 s) (sub E "layer3") x in
  let* x := num_forward (Stage2.ppm s) (sub E "ppm") x in
  Ok x.

Lemma stage2_num_shape s E x : res_map tsize (forward s E x) = Stage2.forward s (tsize x).
Proof. unfold forward, Stage2.forward. num_refine. Qed.

Lemma stage2_num_frame s E E' x y :
  env_agree (names s) E E' -> teq x y -> res_rel teq (forward s E x) (forward s E' y).
Proof. intros Hag Hxy. unfold forward. rel_steps. Qed.

End Stage2Num.

#[export] Instance Stage2_num : NumModule Stage2.t :=
  {| num_forward := Stage2Num.forward; num_forward_shape := Stage2Num.stage2_num_shape;
     num_forward_frame := Stage2Num.stage2_num_frame |}.

Module SRMNum.

Definition forward (m : SRM.t) (E : env) (x : tensor) : res (tensor * tensor) :=
  let* feature1 := num_forward (SRM.stage1 m) (sub E "stage1") x in
  let* output1 := interpolate_num 384 feature1 in
  let* feature2 := num_forward (SRM.stage2 m) (sub E "stage2") x in
  let* feature2 := num_forward (SRM.conv1 m) (sub E "conv1") feature2 in
  let* feature2 := num_forward (SRM.conv2 m) (sub E "conv2") feature2 in
  let* feature1 := interpolate_num 24 feature1 in
  let* feature := cat1_num [feature1; feature2] in
  let* feature := num_forward (SRM.conv6 m) (sub E "conv6") feature in
  let* feature := num_forward (SRM.conv7 m) (sub E "conv7") feature in
  let* output2 := interpolate_num 384 feature in
  Ok (output1, output2).

Definition sizes (o : tensor * tensor) : shape * shape := (tsize o.1, tsize o.2).

Lemma srm_num_sizes m E x : res_map sizes (forward m E x) = SRM.forward m (tsize x).
Proof. unfold forward, SRM.forward. num_refine. Qed.


End SRMNum.

(** ** Inputs and parameter stores *)

(** A parameter store with every parameter [1] and the identity in place
    of the reciprocal square root, and constant inputs. *)
Definition ones_env : env := Env (fun q => q) (fun _ _ => 1%Q).
Definition const_map (s : shape) (v : Q) : tensor := Tensor s (fun _ _ _ _ => v).

(** A one-channel instance of the network's architecture on a
    [24 x 24] input, small enough to run: [1 x 1] convolutions in place
    of the backbones' layers and no residual blocks. *)
Definition conv11 (cin : nat) : Conv2d := Conv2d_ cin 1 1 1 0 true.
Definition mini_ppm : PPM.t :=
  PPM.mk (AvgPool2d_ 1 1, conv11 1) (AvgPool2d_ 1 1, conv11 1)
         (AvgPool2d_ 1 1, conv11 1) (AvgPool2d_ 1 1, conv11 1).
Definition mini_srm : SRM.t :=
  SRM.mk (Stage1.mk 1 (conv11 1) (BatchNorm2d_ 1) ReLU_ (MaxPool2d_ 1 1 0) [] [] [] []
                    (conv11 1) (conv11 1))
         (Stage2.mk 1 (conv11 1) (BatchNorm2d_ 1) ReLU_ (MaxPool2d_ 1 1 0) [] [] [] mini_ppm)
         (conv11 5) (conv11 1) (conv11 2) (conv11 1).

(** ** Values of the modules *)

Lemma cat_val_cons_lt x xs n c i j : c < sC (tsize x) -> cat_val (x :: xs) n c i j = tval x n c i j.
Proof. intros Hc. simpl. by rewrite (proj2 (Nat.ltb_lt _ _) Hc). Qed.

Lemma cat_val_cons_ge x xs n c i j :
  sC (tsize x) <= c -> cat_val (x :: xs) n c i j = cat_val xs n (c - sC (tsize x)) i j.
Proof. intros Hc. simpl. destruct (Nat.ltb_spec c (sC (tsize x))); [lia|done]. Qed.

Lemma cat1_num_inv xs y : cat1_num xs = Ok y -> tval y = cat_val xs.
Proof. unfold cat1_num. intros Hf. res_run Hf. by injection Hf as <-. Qed.

(** C15: the output of a residual block is nonnegative everywhere: its
    last operation is the ReLU after the addition of the shortcut. *)
Theorem bottleneck_num_nonneg b E x y :
  BottleneckNum.forward b E x = Ok y -> forall n c i j, (0 <= tval y n c i j)%Q.
Proof.
  unfold BottleneckNum.forward. intros Hf. res_run Hf.
  cbn in Hf. injection Hf as <-. intros. apply Q.le_max_l.
Qed.

(** C16: the pyramid pooling module passes its input through: the
    first [C] channels of its output are the [C] channels of the input. *)
Theorem ppm_num_passthrough p E x y :
  PPMNum.forward p E x = Ok y ->
  forall n c i j, c < sC (tsize x) -> tval y n c i j = tval x n c i j.
Proof.
  unfold PPMNum.forward. intros Hf. res_run Hf. apply cat1_num_inv in Hf.
  intros. rewrite Hf. by apply cat_val_cons_lt.
Qed.

Lemma ppm_block1_shape x :
  sC x = 1024 -> sH x = 24 -> sW x = 24 ->
  nn_forward (PPM.block1 PPM.init) x = Ok (Shape (sN x) 512 1 1).
Proof.
  intros HC HH HW. cbn [PPM.init PPM.block1]. rewrite branch_forward by lia.
  by rewrite HH, HW.
Qed.

(** The shape a module's numeric result has, from its shape forward. *)
Lemma num_forward_Ok {M} `{NumModule M} (m : M) E x y s :
  num_forward m E x = Ok y -> nn_forward m (tsize x) = Ok s -> tsize y = s.
Proof.
  intros Hy Hs. pose proof (num_forward_shape m E x) as Hm.
  rewrite Hy, Hs in Hm. by injection Hm.
Qed.

Lemma conv2d_num_val cv E x y :
  conv2d_num cv E x = Ok y -> forall n o i j, tval y n o i j =
    ((if conv_bias cv then params E "bias" [o] else 0) +
     qsum (conv_in cv) (fun ci => qsum (conv_k cv) (fun ki => qsum (conv_k cv) (fun kj =>
       params E "weight" [o; ci; ki; kj] *
       padded x (conv_p cv) n ci (i * conv_s cv + ki) (j * conv_s cv + kj)))))%Q.
Proof. unfold conv2d_num. intros Hy. res_run Hy. by injection Hy as <-. Qed.

Lemma avgpool2d_num_val a x y :
  avgpool2d_num a x = Ok y -> avgpool2d_forward a (tsize x) = Ok (tsize y) /\
  forall n c i j, tval y n c i j =
    (qsum (ap_k a) (fun ki => qsum (ap_k a) (fun kj =>
       tval x n c (i * ap_s a + ki) (j * ap_s a + kj))) / qnat (ap_k a * ap_k a))%Q.
Proof. unfold avgpool2d_num. intros Hy. res_run Hy. by injection Hy as <-. Qed.

(** The value of [block1] of the built module on a [24 x 24] map: the
    [1 x 1] convolution of the channel means. *)
Lemma ppm_block1_value E x x1 n o :
  num_forward (PPM.block1 PPM.init) (sub E "block1") x = Ok x1 ->
  sH (tsize x) = 24 -> sW (tsize x) = 24 ->
  (tval x1 n o 0 0 ==
   params E "block1.1.bias" [o] +
   qsum 1024 (fun ci => params E "block1.1.weight" [o; ci; 0%nat; 0%nat] *
     (qsum 24 (fun a => qsum 24 (fun b => tval x n ci a b)) / qnat 576)))%Q.
Proof.
  intros E1 HH HW.
  change (pair_num_forward (AvgPool2d_ 24 24, Conv2d_ 1024 512 1 1 0 true) (sub E "block1") x = Ok x1) in E1.
  unfold pair_num_forward in E1. cbn [fst snd] in E1. apply res_bind_eq_Ok in E1 as (p & Ep & E1).
  change (avgpool2d_num (AvgPool2d_ 24 24) x = Ok p) in Ep.
  change (conv2d_num (Conv2d_ 1024 512 1 1 0 true) (sub (sub E "block1") "1") p = Ok x1) in E1.
  rewrite (conv2d_num_val _ _ _ _ E1). cbn [conv_bias conv_in conv_k conv_s conv_p sub params].
  change (dot "block1" (dot "1" "bias")) with "block1.1.bias".
  change (dot "block1" (dot "1" "weight")) with "block1.1.weight".
  apply Qplus_comp; [reflexivity|]. apply qsum_ext; intros ci Hci. rewrite !qsum_1.
  apply Qmult_comp; [reflexivity|].
  apply avgpool2d_num_val in Ep as [Sp Vp]. rewrite avgpool2d_forward_ok in Sp by (cbn; lia).
  injection Sp as Sp. unfold padded. rewrite <- Sp. cbn [sH sW]. rewrite HH, HW.
  rewrite Vp. reflexivity.
Qed.

(** The channels after the input in the module's output are the
    [1 x 1] map of [block1], read at its only position. *)
Lemma ppm_num_block1 E x y :
  PPMNum.forward PPM.init E x = Ok y ->
  exists x1, num_forward (PPM.block1 PPM.init) (sub E "block1") x = Ok x1 /\
    sC (tsize x) = 1024 /\ sH (tsize x) = 24 /\ sW (tsize x) = 24 /\
    tsize x1 = Shape (sN (tsize x)) 512 1 1 /\
    forall n c i j, sC (tsize x) <= c < sC (tsize x) + 512 -> i < 24 -> j < 24 ->
      (tval y n c i j == tval x1 n (c - sC (tsize x)) 0 0)%Q.
Proof.
  intros Hf.
  assert (PPM.forward PPM.init (tsize x) = Ok (tsize y)) as Hs
    by (rewrite <- (PPMNum.ppm_num_shape _ E), Hf; reflexivity).
  apply forward_inv in Hs as (HC & HH & HW).
  unfold PPMNum.forward in Hf. apply res_bind_eq_Ok in Hf as (x1 & E1 & Hf).
  apply res_bind_eq_Ok in Hf as (x1' & E1' & Hf). cbv beta in Hf. res_run Hf.
  apply cat1_num_inv in Hf.
  pose proof (num_forward_Ok _ _ _ _ _ E1 (ppm_block1_shape _ HC HH HW)) as S1.
  apply interpolate_num_inv in E1' as (_ & _ & _ & S1' & V1).
  exists x1. do 5 (split; [done|]). intros n c i j Hc Hi Hj.
  rewrite Hf, (cat_val_cons_ge x), cat_val_cons_lt by (rewrite ?S1', ?S1; cbn; lia).
  rewrite V1, S1. cbn [sH sW]. by rewrite bilinear_one.
Qed.

(** C17: in the pyramid pooling module of the network, the [512]
    channels that follow the input in the output (the [1 x 1] bin of
    [block1], resized to [24 x 24]) are constant over the map. *)
Theorem ppm_num_global_bin E x y :
  PPMNum.forward PPM.init E x = Ok y ->
  forall n c i j i' j', sC (tsize x) <= c < sC (tsize x) + 512 ->
  i < 24 -> j < 24 -> i' < 24 -> j' < 24 ->
  (tval y n c i j == tval y n c i' j')%Q.
Proof.
  intros Hf n c i j i' j' Hc Hi Hj Hi' Hj'.
  destruct (ppm_num_block1 E x y Hf) as (x1 & _ & _ & _ & _ & _ & Hv).
  etransitivity; [|symmetry]; apply Hv; done.
Qed.

(** The auxiliary output is [Stage1]'s map resized to [384]. *)
Lemma srm_num_output1 m E x o1 o2 :
  SRMNum.forward m E x = Ok (o1, o2) ->
  exists f1, num_forward (SRM.stage1 m) (sub E "stage1") x = Ok f1 /\ interpolate_num 384 f1 = Ok o1.
Proof.
  unfold SRMNum.forward. intros Hf. apply res_bind_eq_Ok in Hf as (f1 & E1 & Hf).
  exists f1. split; [done|]. apply res_bind_eq_Ok in Hf as (y1 & Ey & Hf). cbv beta in Hf.
  res_run Hf. by injection Hf as <- _.
Qed.

(** C18: the auxiliary output of the network has, at its four corners,
    the four corner values of the map [Stage1] computes (the resize to
    [384 x 384] aligns the corners). *)
Theorem srm_num_output1_corners m E x o1 o2 :
  SRMNum.forward m E x = Ok (o1, o2) ->
  exists f1, num_forward (SRM.stage1 m) (sub E "stage1") x = Ok f1 /\
  forall n c, let H := sH (tsize f1) in let W := sW (tsize f1) in
  (tval o1 n c 0 0 == tval f1 n c 0 0 /\
   tval o1 n c 0 383 == tval f1 n c 0 (W - 1) /\
   tval o1 n c 383 0 == tval f1 n c (H - 1) 0 /\
   tval o1 n c 383 383 == tval f1 n c (H - 1) (W - 1))%Q.
Proof.
  intros Hf. apply srm_num_output1 in Hf as (f1 & E1 & Ey).
  exists f1. split; [done|]. intros n c. apply (interpolate_num_corners 384); [done|lia].
Qed.

(** C19: every value of the auxiliary output lies between bounds of the
    values of [Stage1]'s map: the resize adds no new extremes. *)
Theorem srm_num_output1_bounds m E x o1 o2 lo hi :
  SRMNum.forward m E x = Ok (o1, o2) ->
  exists f1, num_forward (SRM.stage1 m) (sub E "stage1") x = Ok f1 /\
  ((forall n c i j, in_bounds (tsize f1) n c i j -> lo <= tval f1 n c i j <= hi) ->
   forall n c i j, in_bounds (tsize o1) n c i j -> lo <= tval o1 n c i j <= hi)%Q.
Proof.
  intros Hf. apply srm_num_output1 in Hf as (f1 & E1 & Ey).
  exists f1. split; [done|]. by apply (interpolate_num_bounds 384 f1).
Qed.

(** C20: the global-context channels of the pyramid pooling module
    (the [512] after the input) hold, at every position of the map, the
    [1 x 1] convolution of [block1] applied to the mean of each input
    channel over the [24 x 24] map:
    [bias[o] + sum_ci weight[o, ci, 0, 0] * mean(x[n, ci])], with the
    parameters read under the [state_dict] names [block1.1.weight] and
    [block1.1.bias]. *)
Theorem ppm_num_global_context E x y n o i j :
  PPMNum.forward PPM.init E x = Ok y -> o < 512 -> i < 24 -> j < 24 ->
  (tval y n (1024 + o) i j ==
   params E "block1.1.bias" [o] +
   qsum 1024 (fun ci => params E "block1.1.weight" [o; ci; 0%nat; 0%nat] *
     (qsum 24 (fun a => qsum 24 (fun b => tval x n ci a b)) / qnat 576)))%Q.
Proof.
  intros Hf Ho Hi Hj.
  destruct (ppm_num_block1 E x y Hf) as (x1 & E1 & HC & HH & HW & _ & Hv).
  assert (sC (tsize x) <= 1024 + o < sC (tsize x) + 512) as Hc by lia.
  rewrite (Hv n (1024 + o) i j Hc Hi Hj), HC. replace (1024 + o - 1024) with o by lia.
  by apply ppm_block1_value.
Qed.

(** C22: the auxiliary output depends on nothing but [Stage1] and its
    parameters: if the network succeeds, it also succeeds in any
    parameter store that agrees on the names under [stage1], and gives an
    equivalent [output1] there, whatever the context branch's
    parameters. *)
Theorem srm_num_output1_independent m E E' x o1 o2 :
  env_agree (map fst (prefixed "stage1" (StateDict.params (SRM.stage1 m)))) E E' ->
  SRMNum.forward m E x = Ok (o1, o2) ->
  exists o1' o2', SRMNum.forward m E' x = Ok (o1', o2') /\ teq o1 o1'.
Proof.
  intros Hag Hf.
  assert (is_ok (SRMNum.forward m E' x) = true) as Hok.
  { pose proof (SRMNum.srm_num_sizes m E x) as H1. pose proof (SRMNum.srm_num_sizes m E' x) as H2.
    rewrite Hf in H1. rewrite <- H1 in H2. by destruct (SRMNum.forward m E' x). }
  apply is_ok_Ok in Hok as ([o1' o2'] & Hf'). exists o1', o2'. split; [done|].
  apply srm_num_output1 in Hf as (f1 & E1 & I1). apply srm_num_output1 in Hf' as (f1' & E1' & I1').
  pose proof (num_forward_frame (SRM.stage1 m) (sub E "stage1") (sub E' "stage1") x x
                (env_agree_sub "stage1" (SRM.stage1 m) E E' Hag) (reflexivity x)) as Hr.
  rewrite E1, E1' in Hr. cbn [res_rel] in Hr.
  pose proof (interpolate_num_teq 384 _ _ Hr) as Hi. rewrite I1, I1' in Hi. exact Hi.
Qed.

(** ** Witnesses *)

Lemma bottleneck_num_nonneg_witness :
  exists y, BottleneckNum.forward (Bottleneck.init 4 1 1 None) ones_env
                                  (const_map (Shape 1 4 2 2) (-3)) = Ok y /\
    (0 <= tval y 0 0 0 0)%Q.
Proof.
  eexists; split; [reflexivity|].
  apply (bottleneck_num_nonneg (Bottleneck.init 4 1 1 None) ones_env
                               (const_map (Shape 1 4 2 2) (-3))). reflexivity.
Defined.

Lemma ppm_num_passthrough_witness :
  exists y, PPMNum.forward PPM.init ones_env (const_map (Shape 1 1024 24 24) 7) = Ok y /\
    tval y 0 5 3 3 = 7%Q.
Proof.
  destruct (is_ok_Ok (PPMNum.forward PPM.init ones_env (const_map (Shape 1 1024 24 24) 7)))
    as [y Hy]; [vm_compute; reflexivity|].
  exists y. split; [done|]. apply (ppm_num_passthrough _ _ _ _ Hy). cbn. lia.
Defined.

Lemma ppm_num_global_bin_witness :
  exists y, PPMNum.forward PPM.init ones_env (const_map (Shape 1 1024 24 24) 7) = Ok y /\
    (tval y 0 1024 0 0 == tval y 0 1024 23 5)%Q.
Proof.
  destruct (is_ok_Ok (PPMNum.forward PPM.init ones_env (const_map (Shape 1 1024 24 24) 7)))
    as [y Hy]; [vm_compute; reflexivity|].
  exists y. split; [done|]. apply (ppm_num_global_bin _ _ _ Hy); cbn; lia.
Defined.

Lemma srm_num_output1_corners_witness :
  exists o1 o2, SRMNum.forward mini_srm ones_env (const_map (Shape 1 1 24 24) 1) = Ok (o1, o2) /\
  exists f1, num_forward (SRM.stage1 mini_srm) (sub ones_env "stage1")
                         (const_map (Shape 1 1 24 24) 1) = Ok f1 /\
    (tval o1 0 0 383 383 == tval f1 0 0 (sH (tsize f1) - 1) (sW (tsize f1) - 1))%Q.
Proof.
  destruct (is_ok_Ok (SRMNum.forward mini_srm ones_env (const_map (Shape 1 1 24 24) 1)))
    as [[o1 o2] Ho]; [vm_compute; reflexivity|].
  exists o1, o2. split; [done|].
  destruct (srm_num_output1_corners _ _ _ _ _ Ho) as (f1 & Ef & Hc).
  exists f1. split; [done|]. apply (Hc 0 0).
Defined.

Lemma srm_num_output1_bounds_witness :
  exists o1 o2, SRMNum.forward mini_srm ones_env (const_map (Shape 1 1 24 24) 1) = Ok (o1, o2) /\
  exists f1, num_forward (SRM.stage1 mini_srm) (sub ones_env "stage1")
                         (const_map (Shape 1 1 24 24) 1) = Ok f1 /\
  ((forall n c i j, in_bounds (tsize f1) n c i j -> 0 <= tval f1 n c i j <= 5) ->
   forall n c i j, in_bounds (tsize o1) n c i j -> 0 <= tval o1 n c i j <= 5)%Q.
Proof.
  destruct (is_ok_Ok (SRMNum.forward mini_srm ones_env (const_map (Shape 1 1 24 24) 1)))
    as [[o1 o2] Ho]; [vm_compute; reflexivity|].
  exists o1, o2. split; [done|]. apply (srm_num_output1_bounds _ _ _ _ _ 0 5 Ho).
Defined.

Lemma ppm_num_global_context_witness :
  exists y, PPMNum.forward PPM.init ones_env (const_map (Shape 1 1024 24 24) 7) = Ok y /\
   (tval y 0 (1024 + 3) 5 6 ==
    params ones_env "block1.1.bias" [3%nat] +
    qsum 1024 (fun ci => params ones_env "block1.1.weight" [3%nat; ci; 0%nat; 0%nat] *
      (qsum 24 (fun a => qsum 24 (fun b => tval (const_map (Shape 1 1024 24 24) 7) 0 ci a b))
       / qnat 576)))%Q.
Proof.
  destruct (is_ok_Ok (PPMNum.forward PPM.init ones_env (const_map (Shape 1 1024 24 24) 7)))
    as [y Hy]; [vm_compute; reflexivity|].
  exists y. split; [done|]. apply (ppm_num_global_context _ _ _ _ _ _ _ Hy); lia.
Defined.

(** A store whose context-branch parameters differ from [ones_env]'s. *)
Definition stage2_env : env :=
  Env (fun q => q) (fun k _ => if String.prefix "stage2" k then 3%Q else 1%Q).

Lemma stage2_env_agree :
  env_agree (map fst (prefixed "stage1" (StateDict.params (SRM.stage1 mini_srm)))) ones_env stage2_env.
Proof.
  split; [done|]. intros k Hk idx. cbn [params ones_env stage2_env].
  assert (forallb (fun k => negb (String.prefix "stage2" k))
            (map fst (prefixed "stage1" (StateDict.params (SRM.stage1 mini_srm)))) = true) as Hall
    by (vm_compute; reflexivity).
  apply list_elem_of_In in Hk. eapply forallb_forall in Hall; [|exact Hk].
  apply negb_true_iff in Hall. by rewrite Hall.
Qed.

Lemma srm_num_output1_independent_witness :
  exists o1 o2, SRMNum.forward mini_srm ones_env (const_map (Shape 1 1 24 24) 1) = Ok (o1, o2) /\
  exists o1' o2', SRMNum.forward mini_srm stage2_env (const_map (Shape 1 1 24 24) 1) = Ok (o1', o2') /\
    teq o1 o1'.
Proof.
  destruct (is_ok_Ok (SRMNum.forward mini_srm ones_env (const_map (Shape 1 1 24 24) 1)))
    as [[o1 o2] Ho]; [vm_compute; reflexivity|].
  exists o1, o2. split; [done|].
  apply (srm_num_output1_independent _ _ _ _ _ _ stage2_env_agree Ho).
Defined.
